(** * Voice-translation relay: a model of [translator_backend/app.py]

    The program is a Flask handler that sequences four stages (audio
    normalisation, speech recognition, translation, speech synthesis), each
    of which is a call into an external library or remote service.  The
    model below keeps the glue code as it is written and takes the external
    calls as oracles collected in a record [World]; the process state (the
    temp directory, the log, the calls made so far) is threaded explicitly
    through a small state-and-exception monad. *)

From Stdlib Require Import String Ascii.
From Stdlib.Strings Require Import Byte.
From stdpp Require Import gmap strings list fin_maps pretty.

Local Open Scope string_scope.
Local Open Scope list_scope.

(** ** Python values and exceptions *)

(** The two kinds of Python value that flow through the handler: [None]
    and [str]. *)
Inductive pyval : Type :=
  | PyNone
  | PyStr (s : string).

#[export] Instance pyval_eq_dec : EqDecision pyval.
Proof. solve_decision. Defined.

(** Truth value of an object in [if x:] and [not x]: [None] and the empty
    string are false, every other string is true. *)
Definition truthy (v : pyval) : bool :=
  match v with
  | PyNone => false
  | PyStr "" => false
  | PyStr _ => true
  end.

(** The exception classes that the [except] clauses tell apart.  Every
    exception of the model is an instance of [Exception]; the two classes of
    [speech_recognition] are direct subclasses of it and unrelated to each
    other. *)
Inductive exn_class : Type :=
  | UnknownValueError
  | RequestError
  | OtherException.

Record exn : Type := Exn {
  exn_cls : exn_class;
  exn_str : string            (* str(e) *)
}.

Inductive result (A : Type) : Type :=
  | Ok (a : A)
  | Raise (e : exn).
Arguments Ok {A} a.
Arguments Raise {A} e.

(** ** Configuration *)

Module Config.

(** [LANGUAGES]: a dict from language name to a dict with the keys
    ['speech'] and ['trans']. *)
Definition LANGUAGES : gmap string (gmap string string) :=
  {[ "Hindi"     := {[ "speech" := "hi-IN"; "trans" := "hi" ]};
     "Kannada"   := {[ "speech" := "kn-IN"; "trans" := "kn" ]};
     "Tamil"     := {[ "speech" := "ta-IN"; "trans" := "ta" ]};
     "Telugu"    := {[ "speech" := "te-IN"; "trans" := "te" ]};
     "Malayalam" := {[ "speech" := "ml-IN"; "trans" := "ml" ]};
     "English"   := {[ "speech" := "en-US"; "trans" := "en" ]} ]}.

Definition UPLOAD_FOLDER : string := "temp_audio".

(** [d.get(k, dflt)]. *)
Definition dict_get {V} (d : gmap string V) (k : string) (dflt : V) : V :=
  default dflt (d !! k).

(** [os.path.join(a, b)] for a relative, non-empty [b] and an [a] that
    does not end in a separator, which is how the program calls it. *)
Definition path_join (a b : string) : string := a +:+ "/" +:+ b.

(** The lookups of the program: line 39, line 66, lines 67 and 85. *)
Definition speech_code (language_name : string) : string :=
  dict_get (dict_get LANGUAGES language_name ∅) "speech" "en-US".

Definition src_trans_code (source_lang_name : string) : string :=
  dict_get (dict_get LANGUAGES source_lang_name ∅) "trans" "auto".

Definition tgt_trans_code (target_lang_name : string) : string :=
  dict_get (dict_get LANGUAGES target_lang_name ∅) "trans" "en".

End Config.
Export Config.

(** ** Process state and the outside world *)

(** Contents of a file, of an upload, of a decoded clip. *)
Abbreviation bytes := (list byte).

(** The calls that leave the program text: library and service calls, in
    the spelling of the source. *)
Inductive call : Type :=
  | Call_file_save (dst : string)
  | Call_AudioSegment_from_file (path : string)
  | Call_export (path : string)
  | Call_AudioFile (path : string)
  | Call_record
  | Call_recognize_google (language : string)
  | Call_GoogleTranslator (source target : string)
  | Call_translate (text : pyval)
  | Call_gTTS (text lang : string)
  | Call_uuid4
  | Call_tts_save (path : string)
  | Call_print (line : string).

(** The pipeline stage a call belongs to. *)
Inductive stage : Type :=
  | Save | Normalize | Recognize | Translate | Synthesize.

#[export] Instance stage_eq_dec : EqDecision stage.
Proof. solve_decision. Defined.

Definition stage_of (c : call) : stage :=
  match c with
  | Call_file_save _ => Save
  | Call_AudioSegment_from_file _ | Call_export _ => Normalize
  | Call_AudioFile _ | Call_record | Call_recognize_google _ => Recognize
  | Call_GoogleTranslator _ _ | Call_translate _ => Translate
  | Call_gTTS _ _ | Call_uuid4 | Call_tts_save _ | Call_print _ => Synthesize
  end.

(** [ran s tr]: some call of stage [s] occurs in [tr]. *)
Definition ran (s : stage) (tr : list call) : bool :=
  existsb (λ c, bool_decide (stage_of c = s)) tr.

(** The state of the server process: the files under the working
    directory and the calls made so far, newest first. *)
Record State : Type := mkState {
  fs : gmap string (list byte);
  trace : list call
}.

(** What the libraries and services answer.  Codecs and constructors work
    on data in memory and are functions of their arguments.  Calls that
    leave the process (disk, network, entropy) are also given the number of
    calls the process has made so far, so that the same question may be
    answered differently at different times. *)
Record World : Type := mkWorld {
  file_save : nat → bytes → result unit;
  AudioSegment_from_file : bytes → result bytes;
  AudioSegment_export : bytes → result bytes;
  AudioFile : bytes → result bytes;
  Recognizer_record : bytes → result bytes;
  recognize_google : nat → bytes → string → result string;
  GoogleTranslator : string → string → result unit;
  translate : nat → string → string → pyval → result string;
  gTTS : string → string → result unit;
  uuid4 : nat → string;            (* str(uuid.uuid4()) *)
  tts_save : nat → string → string → result bytes
}.

(** ** The monad of the handler: state and exceptions *)

Definition M (A : Type) : Type := State → result A * State.

#[export] Instance M_ret : MRet M := λ A a st, (Ok a, st).

#[export] Instance M_bind : MBind M := λ A B f m st,
  match m st with
  | (Ok a, st') => f a st'
  | (Raise e, st') => (Raise e, st')
  end.

(** [try: body except Exception as e: handler]. *)
Definition try_except {A} (body : M A) (handler : exn → M A) : M A := λ st,
  match body st with
  | (Ok a, st') => (Ok a, st')
  | (Raise e, st') => handler e st'
  end.

(** One call to the outside: it is recorded, and answered by the oracle at
    the current call count. *)
Definition extern {A} (c : call) (answer : nat → result A) : M A := λ st,
  (answer (length (trace st)), mkState (fs st) (c :: trace st)).

Definition FileNotFoundError (path : string) : exn :=
  Exn OtherException ("[Errno 2] No such file or directory: '" +:+ path +:+ "'").

Definition read_file (path : string) : M bytes := λ st,
  match fs st !! path with
  | Some b => (Ok b, st)
  | None => (Raise (FileNotFoundError path), st)
  end.

Definition write_file (path : string) (b : bytes) : M unit := λ st,
  (Ok tt, mkState (<[path := b]> (fs st)) (trace st)).

(** ** The program *)

Record Request : Type := mkRequest {
  files : gmap string (list byte);      (* request.files *)
  form : gmap string string             (* request.form *)
}.

(** A response: the dict given to [jsonify] and the status code. *)
Definition Response : Type := gmap string pyval * nat.

Section Program.

Variable w : World.

(** *** Module 1: speech recognition (lines 32-55) *)

(** The [try] block, lines 42-49. *)
Definition recognize_try (file_path lang_code : string) : M (pyval * pyval) :=
  wav ← read_file file_path;
  source ← extern (Call_AudioFile file_path) (λ _, AudioFile w wav);
  audio_data ← extern Call_record (λ _, Recognizer_record w source);
  text ← extern (Call_recognize_google lang_code)
                (λ t, recognize_google w t audio_data lang_code);
  mret (PyStr text, PyNone).

Definition recognize_speech_from_file (file_path language_name : string)
  : M (pyval * pyval) :=
  let lang_code := speech_code language_name in
  try_except
    (recognize_try file_path lang_code)
    (λ e,
       match exn_cls e with
       | UnknownValueError =>
           mret (PyNone, PyStr "Could not understand the audio.")
       | RequestError =>
           mret (PyNone, PyStr "Could not request results from Speech service.")
       | OtherException =>
           mret (PyNone, PyStr (exn_str e))
       end).

(** *** Module 2: translator (lines 60-74) *)

(** The [try] block, lines 65-72. *)
Definition translate_try (text : pyval)
    (source_lang_name target_lang_name : string) : M string :=
  let src_code := src_trans_code source_lang_name in
  let tgt_code := tgt_trans_code target_lang_name in
  extern (Call_GoogleTranslator src_code tgt_code)
         (λ _, GoogleTranslator w src_code tgt_code);;
  translated_text ← extern (Call_translate text)
                           (λ t, translate w t src_code tgt_code text);
  mret translated_text.

Definition translate_text_content (text : pyval)
    (source_lang_name target_lang_name : string) : M string :=
  try_except
    (translate_try text source_lang_name target_lang_name)
    (λ e, mret ("Error: " +:+ exn_str e)).

(** *** Module 3: text to speech (lines 79-98) *)

(** The [try] block, lines 84-95. *)
Definition synthesize_try (text target_lang_name : string) : M pyval :=
  let lang_code := tgt_trans_code target_lang_name in
  extern (Call_gTTS text lang_code) (λ _, gTTS w text lang_code);;
  u ← extern Call_uuid4 (λ t, Ok (uuid4 w t));
  let filename := u +:+ ".mp3" in
  let save_path := path_join UPLOAD_FOLDER filename in
  mp3 ← extern (Call_tts_save save_path) (λ t, tts_save w t text lang_code);
  write_file save_path mp3;;
  mret (PyStr filename).

Definition text_to_speech_file (text target_lang_name : string) : M pyval :=
  try_except
    (synthesize_try text target_lang_name)
    (λ e,
       extern (Call_print ("TTS Error: " +:+ exn_str e)) (λ _, Ok tt);;
       mret PyNone).

(** *** The endpoint [POST /translate_voice] (lines 103-155) *)

(** Lines 110 and 111. *)
Definition source_lang_of (request : Request) : string :=
  dict_get (form request) "source_lang" "English".

Definition target_lang_of (request : Request) : string :=
  dict_get (form request) "target_lang" "Hindi".

(** Step 2 (lines 115-116): save the upload under the fixed name. *)
Definition save_upload (file : bytes) : M unit :=
  let input_path := path_join UPLOAD_FOLDER "input.wav" in
  extern (Call_file_save input_path) (λ t, file_save w t file);;
  write_file input_path file.

(** Step 3: the [try] block, lines 122-124, which ends with [wav_path]
    bound. *)
Definition convert_try : M string :=
  let input_path := path_join UPLOAD_FOLDER "input.wav" in
  raw ← read_file input_path;
  audio ← extern (Call_AudioSegment_from_file input_path)
                 (λ _, AudioSegment_from_file w raw);
  let wav_path := path_join UPLOAD_FOLDER "converted.wav" in
  wav ← extern (Call_export wav_path) (λ _, AudioSegment_export w audio);
  write_file wav_path wav;;
  mret wav_path.

(** Step 3 with its [except] clause (lines 121-126).  The result is the
    early response of the [except] clause, or the path of the converted file
    with which the handler goes on. *)
Definition convert_audio : M (Response + string) :=
  try_except
    (wav_path ← convert_try; mret (inr wav_path))
    (λ e, mret (inl ({[ "error" := PyStr ("Audio format error: " +:+ exn_str e) ]},
                     500))).

(** Steps A, B, C and the result (lines 128-155). *)
Definition speech_to_speech (wav_path source_lang target_lang : string)
  : M Response :=
  '(original_text, error) ← recognize_speech_from_file wav_path source_lang;
  if truthy error then mret ({[ "error" := error ]}, 400) else
  translated_text ← translate_text_content original_text source_lang target_lang;
  output_audio_filename ← text_to_speech_file translated_text target_lang;
  if negb (truthy output_audio_filename)
  then mret ({[ "error" := PyStr "Failed to generate speech" ]}, 500)
  else mret ({[ "original_text" := original_text;
                "translated_text" := PyStr translated_text;
                "audio_file" := output_audio_filename ]}, 200).

Definition process_voice_translation (request : Request) : M Response :=
  match files request !! "audio" with
  | None => mret ({[ "error" := PyStr "No audio file provided" ]}, 400)
  | Some file =>
    let source_lang := source_lang_of request in
    let target_lang := target_lang_of request in
    save_upload file;;
    converted ← convert_audio;
    match converted with
    | inl response => mret response
    | inr wav_path => speech_to_speech wav_path source_lang target_lang
    end
  end.

End Program.

(** *** The endpoint [GET /get_audio/<filename>] (lines 157-159)

    [send_file] answers with the bytes of the file at the joined path and
    raises when there is no such file; nothing catches that exception.  The
    route's converter gives a non-empty [filename] without "/".  The model
    has one directory tree, that of the working directory in which
    [temp_audio] is created and written: the server is taken to be started
    from the directory of [app.py], against which [send_file] resolves a
    relative path. *)
Definition get_audio (filename : string) : M bytes :=
  read_file (path_join UPLOAD_FOLDER filename).

(** ** Example worlds

    A family of concrete worlds, used to run the handler.  The first byte
    of the clip decides what recognition answers; the two flags switch the
    translation service and the synthesis service off. *)

Definition demo_recognize (audio_data : bytes) : result string :=
  match audio_data with
  | x00 :: _ => Raise (Exn UnknownValueError "")
  | x01 :: _ => Raise (Exn RequestError "recognition connection failed: timed out")
  | x02 :: _ => Raise (Exn OtherException "")
  | x03 :: _ => Raise (Exn OtherException "Audio file could not be read as PCM WAV")
  | _ => Ok "hello"
  end.

Definition demo_world (translation_down synthesis_down : bool) : World := {|
  file_save := λ _ _, Ok tt;
  AudioSegment_from_file := λ raw,
    match raw with
    | [] => Raise (Exn OtherException "Decoding failed. ffmpeg returned error code: 1")
    | _ => Ok raw
    end;
  AudioSegment_export := λ audio, Ok audio;
  AudioFile := λ wav, Ok wav;
  Recognizer_record := λ source, Ok source;
  recognize_google := λ _ audio_data _, demo_recognize audio_data;
  GoogleTranslator := λ _ _, Ok tt;
  translate := λ _ _ tgt text,
    if translation_down
    then Raise (Exn OtherException "Request exception can happen due to an api connection error.")
    else match text with
         | PyStr s => Ok (tgt +:+ ":" +:+ s)
         | PyNone => Raise (Exn OtherException "None --> text must be a valid text")
         end;
  gTTS := λ text _,
    match text with
    | "" => Raise (Exn OtherException "No text to speak")
    | _ => Ok tt
    end;
  uuid4 := λ t, "7d9f3c1e-5a2b-4c8d-9e0f-" +:+ pretty t;
  tts_save := λ _ _ _,
    if synthesis_down
    then Raise (Exn OtherException "Failed to connect. Probable cause: Unknown")
    else Ok [x49; x44; x33]
|}.

(** The example world with a UUID generator that returns the same value at
    every draw; recognition, translation and synthesis work. *)
Definition repeating_uuid_world : World := {|
  file_save := file_save (demo_world false false);
  AudioSegment_from_file := AudioSegment_from_file (demo_world false false);
  AudioSegment_export := AudioSegment_export (demo_world false false);
  AudioFile := AudioFile (demo_world false false);
  Recognizer_record := Recognizer_record (demo_world false false);
  recognize_google := recognize_google (demo_world false false);
  GoogleTranslator := GoogleTranslator (demo_world false false);
  translate := translate (demo_world false false);
  gTTS := gTTS (demo_world false false);
  uuid4 := λ _, "7d9f3c1e-5a2b-4c8d-9e0f-3b1a6c5d4e2f";
  tts_save := tts_save (demo_world false false)
|}.

(** The example world with a full disk: saving the upload raises. *)
Definition disk_full_world : World := {|
  file_save := λ _ _, Raise (Exn OtherException "[Errno 28] No space left on device");
  AudioSegment_from_file := AudioSegment_from_file (demo_world false false);
  AudioSegment_export := AudioSegment_export (demo_world false false);
  AudioFile := AudioFile (demo_world false false);
  Recognizer_record := Recognizer_record (demo_world false false);
  recognize_google := recognize_google (demo_world false false);
  GoogleTranslator := GoogleTranslator (demo_world false false);
  translate := translate (demo_world false false);
  gTTS := gTTS (demo_world false false);
  uuid4 := uuid4 (demo_world false false);
  tts_save := tts_save (demo_world false false)
|}.

Definition fresh_state : State := mkState ∅ [].

Definition demo_request (clip : bytes) : Request :=
  mkRequest {[ "audio" := clip ]} ∅.

(** ** Vocabulary of the statements *)

(** The names of the table. *)
Definition supported_languages : list string :=
  ["Hindi"; "Kannada"; "Tamil"; "Telugu"; "Malayalam"; "English"].

(** [calls_in stages new]: every call of [new] belongs to one of [stages]. *)
Definition calls_in (stages : list stage) (new : list call) : Prop :=
  Forall (λ c, stage_of c ∈ stages) new.

(** The message the recognizer returns for an exception: one [except]
    clause per class. *)
Definition recognition_error_message (e : exn) : string :=
  match exn_cls e with
  | UnknownValueError => "Could not understand the audio."
  | RequestError => "Could not request results from Speech service."
  | OtherException => exn_str e
  end.

(** The response of the handler once the three stage functions have
    returned (lines 145-155). *)
Definition final_response (original_text : pyval) (translated_text : string)
    (output_audio_filename : pyval) : Response :=
  if negb (truthy output_audio_filename)
  then ({[ "error" := PyStr "Failed to generate speech" ]}, 500)
  else ({[ "original_text" := original_text;
           "translated_text" := PyStr translated_text;
           "audio_file" := output_audio_filename ]}, 200).

(** [converted_at w request st wav_path st1]: the run of the handler on
    [request] from [st] finds the upload, saves it and converts it, and
    stands before step A in state [st1] with the converted file at
    [wav_path]. *)
Definition converted_at (w : World) (request : Request) (st : State)
    (wav_path : string) (st1 : State) : Prop :=
  ∃ (file : bytes) (st0 : State),
    files request !! "audio" = Some file ∧
    save_upload w file st = (Ok tt, st0) ∧
    convert_audio w st0 = (Ok (inr wav_path), st1).

(** The paths the handler writes to: the two fixed names and the names made
    from a UUID. *)
Definition artifact_path (w : World) (path : string) : Prop :=
  path = path_join UPLOAD_FOLDER "input.wav" ∨
  path = path_join UPLOAD_FOLDER "converted.wav" ∨
  ∃ t : nat, path = path_join UPLOAD_FOLDER (uuid4 w t +:+ ".mp3").

(** [store_grows w old new]: every file of [old] is still there in [new],
    and outside the paths above nothing has changed. *)
Definition store_grows (w : World) (old new : gmap string (list byte)) : Prop :=
  (∀ path : string, is_Some (old !! path) → is_Some (new !! path)) ∧
  (∀ path : string, ¬ artifact_path w path → new !! path = old !! path).

(** The assumptions under which two runs are compared: the recognition and
    translation services answer the same question in the same way whenever
    they are asked, and no UUID is drawn twice. *)
Definition recognition_deterministic (w : World) : Prop :=
  ∀ (t t' : nat) (audio_data : bytes) (language : string),
    recognize_google w t audio_data language
    = recognize_google w t' audio_data language.

Definition translation_deterministic (w : World) : Prop :=
  ∀ (t t' : nat) (source target : string) (text : pyval),
    translate w t source target text = translate w t' source target text.

Definition uuid4_never_repeats (w : World) : Prop :=
  ∀ t t' : nat, uuid4 w t = uuid4 w t' → t = t'.

(** ** Proof tactics *)

(** Membership in a list that is written out. *)
Ltac in_list :=
  repeat first [ apply list_elem_of_here | apply list_elem_of_further ].

Ltac run_M :=
  unfold mbind, mret, M_bind, M_ret, try_except, extern, read_file, write_file;
  simpl.

Ltac calls_in_auto :=
  unfold calls_in; repeat (apply Forall_cons; split; [simpl; in_list |]);
  apply Forall_nil; exact I.

Ltac not_in_list :=
  rewrite !not_elem_of_cons; repeat (split; [discriminate |]);
  apply not_elem_of_nil.

(** * Properties *)

Example speech_code_Kannada : speech_code "Kannada" = "kn-IN".
Proof. vm_compute. reflexivity. Qed.

Example src_code_unknown : src_trans_code "Klingon" = "auto".
Proof. vm_compute. reflexivity. Qed.

(** ** The language table *)

Lemma supported_languages_cases (name : string) :
  name ∈ supported_languages →
  name = "Hindi" ∨ name = "Kannada" ∨ name = "Tamil" ∨
  name = "Telugu" ∨ name = "Malayalam" ∨ name = "English".
Proof.
  unfold supported_languages. rewrite !elem_of_cons, elem_of_nil. tauto.
Qed.

Lemma LANGUAGES_unsupported (name : string) :
  name ∉ supported_languages → LANGUAGES !! name = None.
Proof.
  intros Hout. unfold LANGUAGES.
  repeat (rewrite lookup_insert_ne; [| intros <-; apply Hout; in_list]).
  apply lookup_singleton_ne.
  intros <-. apply Hout. in_list.
Qed.

(** C1. Code lookup: each of the six names of the table resolves to the
    pair of codes the table gives it; every other name resolves to the
    defaults, speech code "en-US", source translation code "auto", target
    translation code "en" (the target lookup is the one that both the
    translator and the synthesizer perform); and whatever the name, the
    lookups are total and answer with one of the table's codes or a
    default. *)
Theorem C1_language_lookup :
  (speech_code "Hindi" = "hi-IN" ∧ src_trans_code "Hindi" = "hi" ∧ tgt_trans_code "Hindi" = "hi") ∧
  (speech_code "Kannada" = "kn-IN" ∧ src_trans_code "Kannada" = "kn" ∧ tgt_trans_code "Kannada" = "kn") ∧
  (speech_code "Tamil" = "ta-IN" ∧ src_trans_code "Tamil" = "ta" ∧ tgt_trans_code "Tamil" = "ta") ∧
  (speech_code "Telugu" = "te-IN" ∧ src_trans_code "Telugu" = "te" ∧ tgt_trans_code "Telugu" = "te") ∧
  (speech_code "Malayalam" = "ml-IN" ∧ src_trans_code "Malayalam" = "ml" ∧ tgt_trans_code "Malayalam" = "ml") ∧
  (speech_code "English" = "en-US" ∧ src_trans_code "English" = "en" ∧ tgt_trans_code "English" = "en") ∧
  (∀ name : string, name ∈ supported_languages →
     ∃ entry : gmap string string,
       LANGUAGES !! name = Some entry ∧
       entry !! "speech" = Some (speech_code name) ∧
       entry !! "trans" = Some (src_trans_code name) ∧
       entry !! "trans" = Some (tgt_trans_code name)) ∧
  (∀ name : string, name ∉ supported_languages →
     speech_code name = "en-US" ∧
     src_trans_code name = "auto" ∧
     tgt_trans_code name = "en") ∧
  (∀ name : string,
     speech_code name ∈ ["hi-IN"; "kn-IN"; "ta-IN"; "te-IN"; "ml-IN"; "en-US"] ∧
     src_trans_code name ∈ ["hi"; "kn"; "ta"; "te"; "ml"; "en"; "auto"] ∧
     tgt_trans_code name ∈ ["hi"; "kn"; "ta"; "te"; "ml"; "en"]).
Proof.
  assert (Hout : ∀ name : string, name ∉ supported_languages →
            speech_code name = "en-US" ∧ src_trans_code name = "auto" ∧
            tgt_trans_code name = "en").
  { intros name Hn. unfold speech_code, src_trans_code, tgt_trans_code, dict_get.
    rewrite (LANGUAGES_unsupported name Hn). simpl.
    rewrite !lookup_empty. done. }
  do 6 (split; [by vm_compute |]).
  split; [| split].
  - intros name H.
    destruct (supported_languages_cases name H)
      as [-> | [-> | [-> | [-> | [-> | ->]]]]];
      eexists; (split; [vm_compute; reflexivity |]); by vm_compute.
  - apply Hout.
  - intros name. destruct (decide (name ∈ supported_languages)) as [H | H].
    + destruct (supported_languages_cases name H)
        as [-> | [-> | [-> | [-> | [-> | ->]]]]];
        (split; [| split]); vm_compute; in_list.
    + destruct (Hout name H) as (-> & -> & ->).
      (split; [| split]); in_list.
Qed.

(** Witness of C1 at the name "Klingon", which the table does not have. *)
Lemma C1_unsupported_witness :
  ("Klingon" ∉ supported_languages) ∧
  speech_code "Klingon" = "en-US" ∧
  src_trans_code "Klingon" = "auto" ∧
  tgt_trans_code "Klingon" = "en".
Proof.
  assert (H : "Klingon" ∉ supported_languages)
    by (apply (bool_decide_unpack _); vm_compute; exact I).
  split; [exact H |].
  exact (proj1 (proj2 (proj2 (proj2 (proj2 (proj2 (proj2 (proj2 C1_language_lookup))))))) "Klingon" H).
Defined.

(** ** Running the monad *)

Lemma try_except_ok {A} (body : M A) (handler : exn → M A) (a : A)
    (st st' : State) :
  body st = (Ok a, st') → try_except body handler st = (Ok a, st').
Proof. intros H. unfold try_except. by rewrite H. Qed.

Lemma try_except_raise {A} (body : M A) (handler : exn → M A) (e : exn)
    (st st' : State) :
  body st = (Raise e, st') → try_except body handler st = handler e st'.
Proof. intros H. unfold try_except. by rewrite H. Qed.

Lemma calls_in_not_ran (stages : list stage) (s : stage) (new : list call) :
  calls_in stages new → s ∉ stages → ran s new = false.
Proof.
  intros Hall Hs. unfold ran. induction Hall as [| c new Hc _ IH]; simpl.
  - reflexivity.
  - rewrite IH, orb_false_r. apply bool_decide_eq_false.
    intros Heq. apply Hs. rewrite <- Heq. exact Hc.
Qed.

Lemma ran_app (s : stage) (new old : list call) :
  ran s (new ++ old) = ran s new || ran s old.
Proof. unfold ran. apply existsb_app. Qed.

Lemma calls_in_app (stages : list stage) (new old : list call) :
  calls_in stages new → calls_in stages old → calls_in stages (new ++ old).
Proof. unfold calls_in. intros. by apply Forall_app. Qed.

Lemma calls_in_weaken (stages stages' : list stage) (new : list call) :
  stages ⊆ stages' → calls_in stages new → calls_in stages' new.
Proof.
  unfold calls_in. intros Hsub Hall.
  eapply Forall_impl; [exact Hall |]. intros c Hc. by apply Hsub.
Qed.

(** ** The three stage functions *)

Section Stages.

Variable w : World.

(** *** Recognizer *)

(** The [try] block leaves the files alone and makes only recognition
    calls; when it ends normally, it ends with a text and no error. *)
Lemma recognize_try_footprint (file_path lang_code : string) (st : State) :
  ∃ (r : result (pyval * pyval)) (new : list call),
    recognize_try w file_path lang_code st
      = (r, mkState (fs st) (new ++ trace st)) ∧
    calls_in [Recognize] new ∧
    (∀ v, r = Ok v → ∃ text : string, v = (PyStr text, PyNone)).
Proof.
  unfold recognize_try. run_M.
  destruct st as [files0 tr]; simpl.
  destruct (files0 !! file_path) as [wav |]; simpl.
  - destruct (AudioFile w wav) as [source | e]; simpl.
    + destruct (Recognizer_record w source) as [audio_data | e]; simpl.
      * destruct (recognize_google w _ audio_data _) as [text | e]; simpl;
          eexists;
          exists [Call_recognize_google lang_code; Call_record;
                  Call_AudioFile file_path];
          (split; [reflexivity |]); (split; [calls_in_auto |]).
        -- intros v [= <-]. by eexists.
        -- discriminate.
      * eexists. exists [Call_record; Call_AudioFile file_path].
        split; [reflexivity |]. split; [calls_in_auto | discriminate].
    + eexists. exists [Call_AudioFile file_path].
      split; [reflexivity |]. split; [calls_in_auto | discriminate].
  - eexists. exists []. split; [reflexivity |].
    split; [calls_in_auto | discriminate].
Qed.

Lemma recognize_returns (file_path language_name : string)
    (v : pyval * pyval) (st st' : State) :
  recognize_try w file_path (speech_code language_name) st = (Ok v, st') →
  recognize_speech_from_file w file_path language_name st = (Ok v, st').
Proof. apply try_except_ok. Qed.

Lemma recognize_catches (file_path language_name : string) (e : exn)
    (st st' : State) :
  recognize_try w file_path (speech_code language_name) st = (Raise e, st') →
  recognize_speech_from_file w file_path language_name st
    = (Ok (PyNone, PyStr (recognition_error_message e)), st').
Proof.
  intros H. unfold recognize_speech_from_file. simpl.
  rewrite (try_except_raise _ _ _ _ _ H). unfold recognition_error_message.
  by destruct (exn_cls e).
Qed.

(** The recognizer always returns a pair, never raises. *)
Lemma recognize_footprint (file_path language_name : string) (st : State) :
  ∃ (original_text error : pyval) (new : list call),
    recognize_speech_from_file w file_path language_name st
      = (Ok (original_text, error), mkState (fs st) (new ++ trace st)) ∧
    calls_in [Recognize] new.
Proof.
  destruct (recognize_try_footprint file_path (speech_code language_name) st)
    as ([[ot err] | e] & new & Hrun & Hin & _).
  - exists ot, err, new. split; [by apply recognize_returns | done].
  - exists PyNone, (PyStr (recognition_error_message e)), new.
    split; [by apply recognize_catches | done].
Qed.

(** What the recognizer can return: a text and no error, or no text and
    the message of an exception raised in its [try] block. *)
Lemma recognize_inv (file_path language_name : string)
    (original_text error : pyval) (st st' : State) :
  recognize_speech_from_file w file_path language_name st
    = (Ok (original_text, error), st') →
  (∃ text : string,
     original_text = PyStr text ∧ error = PyNone ∧
     recognize_try w file_path (speech_code language_name) st
       = (Ok (PyStr text, PyNone), st')) ∨
  (∃ e : exn,
     original_text = PyNone ∧ error = PyStr (recognition_error_message e) ∧
     recognize_try w file_path (speech_code language_name) st = (Raise e, st')).
Proof.
  intros H.
  destruct (recognize_try_footprint file_path (speech_code language_name) st)
    as ([v | e] & new & Hrun & _ & Hok).
  - destruct (Hok v eq_refl) as [text ->].
    rewrite (recognize_returns _ _ _ _ _ Hrun) in H.
    injection H as <- <- <-. left. by exists text.
  - rewrite (recognize_catches _ _ _ _ _ Hrun) in H.
    injection H as <- <- <-. right. by exists e.
Qed.

(** *** Translator *)

Lemma translate_try_footprint (text : pyval) (source_lang target_lang : string)
    (st : State) :
  ∃ (r : result string) (new : list call),
    translate_try w text source_lang target_lang st
      = (r, mkState (fs st) (new ++ trace st)) ∧
    calls_in [Translate] new ∧ ran Translate new = true.
Proof.
  unfold translate_try. run_M.
  destruct st as [files0 tr]; simpl.
  destruct (GoogleTranslator w _ _) as [[] | e]; simpl.
  - destruct (translate w _ _ _ text) as [translated | e]; simpl;
      eexists;
      exists [Call_translate text;
              Call_GoogleTranslator (src_trans_code source_lang)
                                    (tgt_trans_code target_lang)];
      (split; [reflexivity | split; [calls_in_auto | reflexivity]]).
  - eexists.
    exists [Call_GoogleTranslator (src_trans_code source_lang)
                                  (tgt_trans_code target_lang)].
    split; [reflexivity | split; [calls_in_auto | reflexivity]].
Qed.

Lemma translate_returns (text : pyval) (source_lang target_lang : string)
    (translated : string) (st st' : State) :
  translate_try w text source_lang target_lang st = (Ok translated, st') →
  translate_text_content w text source_lang target_lang st
    = (Ok translated, st').
Proof. apply try_except_ok. Qed.

Lemma translate_catches (text : pyval) (source_lang target_lang : string)
    (e : exn) (st st' : State) :
  translate_try w text source_lang target_lang st = (Raise e, st') →
  translate_text_content w text source_lang target_lang st
    = (Ok ("Error: " +:+ exn_str e), st').
Proof.
  intros H. unfold translate_text_content.
  by rewrite (try_except_raise _ _ _ _ _ H).
Qed.

(** The translator always returns a string: nothing it calls can make it
    raise.  It leaves the files alone and makes at least one translation
    call. *)
Lemma translate_footprint (text : pyval) (source_lang target_lang : string)
    (st : State) :
  ∃ (translated : string) (new : list call),
    translate_text_content w text source_lang target_lang st
      = (Ok translated, mkState (fs st) (new ++ trace st)) ∧
    calls_in [Translate] new ∧ ran Translate new = true.
Proof.
  destruct (translate_try_footprint text source_lang target_lang st)
    as ([translated | e] & new & Hrun & Hin & Hran).
  - exists translated, new. split; [by apply translate_returns | done].
  - exists ("Error: " +:+ exn_str e), new.
    split; [by apply translate_catches | done].
Qed.

(** *** Synthesizer *)

(** The [try] block makes at least one synthesis call; when it ends
    normally, its value is the name made of the UUID it drew at its second
    call and the extension. *)
Lemma synthesize_try_footprint (text target_lang : string) (st : State) :
  ∃ (r : result pyval) (files' : gmap string (list byte)) (new : list call),
    synthesize_try w text target_lang st
      = (r, mkState files' (new ++ trace st)) ∧
    calls_in [Synthesize] new ∧ ran Synthesize new = true ∧
    (∀ v, r = Ok v →
       v = PyStr (uuid4 w (S (length (trace st))) +:+ ".mp3") ∧
       Call_uuid4 ∈ new).
Proof.
  unfold synthesize_try. run_M.
  destruct st as [files0 tr]; simpl.
  destruct (gTTS w text _) as [[] | e]; simpl.
  - destruct (tts_save w _ text _) as [mp3 | e]; simpl;
      do 2 eexists;
      exists [Call_tts_save
                (path_join UPLOAD_FOLDER (uuid4 w (S (length tr)) +:+ ".mp3"));
              Call_uuid4;
              Call_gTTS text (tgt_trans_code target_lang)];
      (split; [reflexivity |]); (split; [calls_in_auto |]);
      (split; [reflexivity |]).
    + intros v [= <-]. split; [reflexivity | in_list].
    + discriminate.
  - do 2 eexists. exists [Call_gTTS text (tgt_trans_code target_lang)].
    split; [reflexivity |]. split; [calls_in_auto |].
    split; [reflexivity | discriminate].
Qed.

Lemma synthesize_returns (text target_lang : string) (out : pyval)
    (st st' : State) :
  synthesize_try w text target_lang st = (Ok out, st') →
  text_to_speech_file w text target_lang st = (Ok out, st').
Proof. apply try_except_ok. Qed.

Lemma synthesize_catches (text target_lang : string) (e : exn)
    (st st' : State) :
  synthesize_try w text target_lang st = (Raise e, st') →
  text_to_speech_file w text target_lang st
    = (Ok PyNone,
       mkState (fs st') (Call_print ("TTS Error: " +:+ exn_str e) :: trace st')).
Proof.
  intros H. unfold text_to_speech_file.
  by rewrite (try_except_raise _ _ _ _ _ H).
Qed.

(** What the synthesizer can return. *)
Lemma synthesize_inv (text target_lang : string) (r : result pyval)
    (st st' : State) :
  text_to_speech_file w text target_lang st = (r, st') →
  (r = Ok (PyStr (uuid4 w (S (length (trace st))) +:+ ".mp3")) ∧
   synthesize_try w text target_lang st = (r, st')) ∨
  (r = Ok PyNone ∧
   ∃ (e : exn) (st0 : State),
     synthesize_try w text target_lang st = (Raise e, st0) ∧
     st' = mkState (fs st0)
                   (Call_print ("TTS Error: " +:+ exn_str e) :: trace st0)).
Proof.
  intros H.
  destruct (synthesize_try_footprint text target_lang st)
    as ([v | e] & files' & new & Hrun & _ & _ & Hok).
  - destruct (Hok v eq_refl) as [-> _].
    rewrite (synthesize_returns _ _ _ _ _ Hrun) in H.
    injection H as <- <-. by left.
  - rewrite (synthesize_catches _ _ _ _ _ Hrun) in H.
    injection H as <- <-. right. split; [done |]. by eexists _, _.
Qed.

(** The synthesizer always returns, and makes at least one synthesis
    call. *)
Lemma synthesize_footprint (text target_lang : string) (st : State) :
  ∃ (out : pyval) (files' : gmap string (list byte)) (new : list call),
    text_to_speech_file w text target_lang st
      = (Ok out, mkState files' (new ++ trace st)) ∧
    calls_in [Synthesize] new ∧ ran Synthesize new = true.
Proof.
  destruct (synthesize_try_footprint text target_lang st)
    as ([v | e] & files' & new & Hrun & Hin & Hran & _).
  - exists v, files', new. split; [by apply synthesize_returns | done].
  - exists PyNone, files', (Call_print ("TTS Error: " +:+ exn_str e) :: new).
    split; [by rewrite (synthesize_catches _ _ _ _ _ Hrun) |].
    split; [| reflexivity].
    apply Forall_cons. split; [simpl; in_list | exact Hin].
Qed.

(** A file name the synthesizer makes is never the empty string. *)
Lemma mp3_name_nonempty (u : string) : truthy (PyStr (u +:+ ".mp3")) = true.
Proof. by destruct u. Qed.

End Stages.

(** ** The orchestrator, stage by stage *)

Section Orchestrator.

Variable w : World.

#[local] Arguments recognize_speech_from_file : simpl never.
#[local] Arguments translate_text_content : simpl never.
#[local] Arguments text_to_speech_file : simpl never.
#[local] Arguments save_upload : simpl never.
#[local] Arguments convert_audio : simpl never.
#[local] Arguments speech_to_speech : simpl never.

Lemma save_upload_footprint (file : bytes) (st : State) :
  ∃ (r : result unit) (files' : gmap string (list byte)),
    save_upload w file st
      = (r, mkState files'
              (Call_file_save (path_join UPLOAD_FOLDER "input.wav") :: trace st)).
Proof.
  unfold save_upload. run_M. destruct (file_save w _ file) as [[] | e];
    by eexists _, _.
Qed.

Lemma convert_try_footprint (st : State) :
  ∃ (r : result string) (files' : gmap string (list byte)) (new : list call),
    convert_try w st = (r, mkState files' (new ++ trace st)) ∧
    calls_in [Normalize] new.
Proof.
  unfold convert_try. run_M. destruct st as [files0 tr]; simpl.
  destruct (files0 !! _) as [raw |]; simpl.
  - destruct (AudioSegment_from_file w raw) as [audio | e]; simpl.
    + destruct (AudioSegment_export w audio) as [wav | e]; simpl;
        do 2 eexists;
        exists [Call_export (path_join UPLOAD_FOLDER "converted.wav");
                Call_AudioSegment_from_file (path_join UPLOAD_FOLDER "input.wav")];
        (split; [reflexivity | calls_in_auto]).
    + do 2 eexists.
      exists [Call_AudioSegment_from_file (path_join UPLOAD_FOLDER "input.wav")].
      split; [reflexivity | calls_in_auto].
  - do 2 eexists. exists []. split; [reflexivity | calls_in_auto].
Qed.

Lemma convert_returns (wav_path : string) (st st' : State) :
  convert_try w st = (Ok wav_path, st') →
  convert_audio w st = (Ok (inr wav_path), st').
Proof.
  intros H. unfold convert_audio. apply try_except_ok. run_M. by rewrite H.
Qed.

Lemma convert_catches (e : exn) (st st' : State) :
  convert_try w st = (Raise e, st') →
  convert_audio w st
    = (Ok (inl ({[ "error" := PyStr ("Audio format error: " +:+ exn_str e) ]},
                500)), st').
Proof.
  intros H. unfold convert_audio.
  rewrite (try_except_raise _ _ e st st'); [done |]. run_M. by rewrite H.
Qed.

(** Conversion never raises, and makes only normalisation calls; its
    early response has status 500. *)
Lemma convert_footprint (st : State) :
  ∃ (r : Response + string) (files' : gmap string (list byte))
    (new : list call),
    convert_audio w st = (Ok r, mkState files' (new ++ trace st)) ∧
    calls_in [Normalize] new ∧
    (∀ response : Response, r = inl response → response.2 = 500).
Proof.
  destruct (convert_try_footprint st)
    as ([wav_path | e] & files' & new & Hrun & Hin).
  - eexists _, files', new. split; [by apply convert_returns |].
    split; [done | discriminate].
  - eexists _, files', new. split; [by apply convert_catches |].
    split; [done |]. by intros response [= <-].
Qed.

Lemma process_no_audio (request : Request) (st : State) :
  files request !! "audio" = None →
  process_voice_translation w request st
    = (Ok ({[ "error" := PyStr "No audio file provided" ]}, 400), st).
Proof. intros H. unfold process_voice_translation. by rewrite H. Qed.

Lemma process_save_raises (request : Request) (file : bytes) (e : exn)
    (st st0 : State) :
  files request !! "audio" = Some file →
  save_upload w file st = (Raise e, st0) →
  process_voice_translation w request st = (Raise e, st0).
Proof.
  intros Hf Hs. unfold process_voice_translation. rewrite Hf. run_M.
  by rewrite Hs.
Qed.

Lemma process_converted (request : Request) (file : bytes) (wav_path : string)
    (st st0 st1 : State) :
  files request !! "audio" = Some file →
  save_upload w file st = (Ok tt, st0) →
  convert_audio w st0 = (Ok (inr wav_path), st1) →
  process_voice_translation w request st
    = speech_to_speech w wav_path (source_lang_of request)
                       (target_lang_of request) st1.
Proof.
  intros Hf Hs Hc. unfold process_voice_translation. rewrite Hf. run_M.
  by rewrite Hs, Hc.
Qed.

Lemma process_not_converted (request : Request) (file : bytes)
    (response : Response) (st st0 st1 : State) :
  files request !! "audio" = Some file →
  save_upload w file st = (Ok tt, st0) →
  convert_audio w st0 = (Ok (inl response), st1) →
  process_voice_translation w request st = (Ok response, st1).
Proof.
  intros Hf Hs Hc. unfold process_voice_translation. rewrite Hf. run_M.
  by rewrite Hs, Hc.
Qed.

Lemma speech_to_speech_halts (wav_path source_lang target_lang : string)
    (original_text error : pyval) (st1 st2 : State) :
  recognize_speech_from_file w wav_path source_lang st1
    = (Ok (original_text, error), st2) →
  truthy error = true →
  speech_to_speech w wav_path source_lang target_lang st1
    = (Ok ({[ "error" := error ]}, 400), st2).
Proof.
  intros Hr Ht. unfold speech_to_speech. run_M. rewrite Hr. simpl.
  by rewrite Ht.
Qed.

Lemma speech_to_speech_continues (wav_path source_lang target_lang : string)
    (original_text error : pyval) (translated_text : string) (out : pyval)
    (st1 st2 st3 st4 : State) :
  recognize_speech_from_file w wav_path source_lang st1
    = (Ok (original_text, error), st2) →
  truthy error = false →
  translate_text_content w original_text source_lang target_lang st2
    = (Ok translated_text, st3) →
  text_to_speech_file w translated_text target_lang st3 = (Ok out, st4) →
  speech_to_speech w wav_path source_lang target_lang st1
    = (Ok (final_response original_text translated_text out), st4).
Proof.
  intros Hr Ht Htr Hs. unfold speech_to_speech, final_response. run_M.
  rewrite Hr. simpl. rewrite Ht, Htr. simpl. rewrite Hs. simpl.
  by destruct (truthy out).
Qed.

(** Whatever the request and the world, a run of the handler that makes a
    translation call also makes a synthesis call. *)
Lemma process_footprint (request : Request) (st : State) :
  ∃ (r : result Response) (files' : gmap string (list byte)) (new : list call),
    process_voice_translation w request st
      = (r, mkState files' (new ++ trace st)) ∧
    (ran Translate new = true → ran Synthesize new = true).
Proof.
  destruct (files request !! "audio") as [file |] eqn:Hf.
  - destruct (save_upload_footprint file st) as ([[] | e] & files0 & Hs).
    + destruct (convert_footprint (mkState files0
                  (Call_file_save (path_join UPLOAD_FOLDER "input.wav") :: trace st)))
        as (r0 & files1 & new0 & Hc & Hin0 & _).
      simpl in Hc.
      assert (Hno0 : ran Translate new0 = false)
        by (apply (calls_in_not_ran _ _ _ Hin0); not_in_list).
      set (c0 := Call_file_save (path_join UPLOAD_FOLDER "input.wav")) in *.
      destruct r0 as [response | wav_path].
      * exists (Ok response), files1, (new0 ++ [c0])%list.
        split.
        { rewrite <- app_assoc. by apply (process_not_converted request file _ _ _ _ Hf Hs). }
        by rewrite ran_app, Hno0.
      * rewrite (process_converted _ _ _ _ _ _ Hf Hs Hc).
        destruct (recognize_footprint w wav_path (source_lang_of request)
                    (mkState files1 (new0 ++ c0 :: trace st)))
          as (ot & err & new1 & Hr & Hin1).
        simpl in Hr.
        assert (Hno1 : ran Translate new1 = false)
          by (apply (calls_in_not_ran _ _ _ Hin1); not_in_list).
        destruct (truthy err) eqn:Ht.
        -- rewrite (speech_to_speech_halts _ _ (target_lang_of request) _ _ _ _ Hr Ht).
           exists (Ok ({[ "error" := err ]}, 400)), files1,
             (new1 ++ new0 ++ [c0])%list.
           split; [by rewrite <- !app_assoc |].
           by rewrite !ran_app, Hno1, Hno0.
        -- destruct (translate_footprint w ot (source_lang_of request)
                      (target_lang_of request)
                      (mkState files1 (new1 ++ new0 ++ c0 :: trace st)))
             as (translated & new2 & Htr & _ & _).
           simpl in Htr.
           destruct (synthesize_footprint w translated (target_lang_of request)
                       (mkState files1 (new2 ++ new1 ++ new0 ++ c0 :: trace st)))
             as (out & files3 & new3 & Hsy & _ & Hran3).
           simpl in Hsy.
           rewrite (speech_to_speech_continues _ _ _ _ _ _ _ _ _ _ _ Hr Ht Htr Hsy).
           eexists _, files3, (new3 ++ new2 ++ new1 ++ new0 ++ [c0])%list.
           split; [by rewrite <- !app_assoc |].
           intros _. by rewrite ran_app, Hran3.
    + exists (Raise e), files0,
        [Call_file_save (path_join UPLOAD_FOLDER "input.wav")].
      split; [by apply (process_save_raises request file) | done].
  - exists (Ok ({[ "error" := PyStr "No audio file provided" ]}, 400)),
      (fs st), [].
    split; [| done]. rewrite (process_no_audio _ _ Hf). by destruct st.
Qed.

End Orchestrator.

(** ** The handler's error mapping *)

Lemma process_converted_at (w : World) (request : Request) (st : State)
    (wav_path : string) (st1 : State) :
  converted_at w request st wav_path st1 →
  process_voice_translation w request st
    = speech_to_speech w wav_path (source_lang_of request)
                       (target_lang_of request) st1.
Proof. intros (file & st0 & Hf & Hs & Hc). by eapply process_converted. Qed.

(** C4. A request without an [audio] file gets status 400 and a body with
    an [error] field, whatever its form fields are; the state after the run
    is the state before it, so no call of any stage was made and no file was
    written. *)
Theorem C4_missing_audio (w : World) (request : Request) (st : State) :
  files request !! "audio" = None →
  ∃ body : gmap string pyval,
    process_voice_translation w request st = (Ok (body, 400), st) ∧
    body = {[ "error" := PyStr "No audio file provided" ]} ∧
    is_Some (body !! "error").
Proof.
  intros H. eexists. split; [by apply process_no_audio |].
  split; [reflexivity |]. rewrite lookup_singleton_eq. by eexists.
Qed.

(** Witness of C4: a request with form fields and no file. *)
Lemma C4_missing_audio_witness :
  ∃ body : gmap string pyval,
    process_voice_translation (demo_world false false)
      (mkRequest ∅ {[ "source_lang" := "Tamil"; "target_lang" := "Telugu" ]})
      fresh_state
      = (Ok (body, 400), fresh_state) ∧
    body = {[ "error" := PyStr "No audio file provided" ]} ∧
    is_Some (body !! "error").
Proof.
  apply (C4_missing_audio (demo_world false false)
           (mkRequest ∅ {[ "source_lang" := "Tamil"; "target_lang" := "Telugu" ]})
           fresh_state).
  reflexivity.
Defined.

(** C5. When the conversion of the saved upload raises (the decoder or the
    encoder fails), the handler answers 500 with an [error] field that reads
    "Audio format error: " followed by the message of the exception, and the
    run ends there: the calls it made are those of saving and converting,
    none of recognition, translation or synthesis. *)
Theorem C5_decode_failure (w : World) (request : Request) (file : bytes)
    (e : exn) (st st0 st1 : State) :
  files request !! "audio" = Some file →
  save_upload w file st = (Ok tt, st0) →
  convert_try w st0 = (Raise e, st1) →
  process_voice_translation w request st
    = (Ok ({[ "error" := PyStr ("Audio format error: " +:+ exn_str e) ]}, 500),
       st1) ∧
  ∃ new : list call,
    trace st1 = new ++ trace st ∧
    ran Recognize new = false ∧
    ran Translate new = false ∧
    ran Synthesize new = false.
Proof.
  intros Hf Hs Hc. split.
  - eapply process_not_converted; [exact Hf | exact Hs |].
    by apply convert_catches.
  - destruct (save_upload_footprint w file st) as (r & files0 & Hs').
    rewrite Hs in Hs'. injection Hs' as <- ->.
    destruct (convert_try_footprint w
                (mkState files0
                   (Call_file_save (path_join UPLOAD_FOLDER "input.wav") :: trace st)))
      as (r1 & files1 & new & Hc' & Hin).
    rewrite Hc in Hc'. injection Hc' as <- ->. simpl.
    exists (new ++ [Call_file_save (path_join UPLOAD_FOLDER "input.wav")])%list.
    split; [by rewrite <- app_assoc |].
    assert (Hin' : calls_in [Save; Normalize]
              (new ++ [Call_file_save (path_join UPLOAD_FOLDER "input.wav")])).
    { apply calls_in_app; [| calls_in_auto].
      eapply calls_in_weaken; [| exact Hin].
      intros s Hs1. apply list_elem_of_further. exact Hs1. }
    repeat split; apply (calls_in_not_ran _ _ _ Hin'); not_in_list.
Qed.

(** Witness of C5: an empty upload, which the decoder of the example world
    rejects. *)
Lemma C5_decode_failure_witness :
  process_voice_translation (demo_world false false) (demo_request [])
    fresh_state
    = (Ok ({[ "error" := PyStr "Audio format error: Decoding failed. ffmpeg returned error code: 1" ]},
           500),
       mkState {[ "temp_audio/input.wav" := [] ]}
               [Call_AudioSegment_from_file "temp_audio/input.wav";
                Call_file_save "temp_audio/input.wav"]).
Proof.
  refine (proj1 (C5_decode_failure (demo_world false false) (demo_request []) []
                   (Exn OtherException "Decoding failed. ffmpeg returned error code: 1")
                   fresh_state
                   (mkState {[ "temp_audio/input.wav" := [] ]}
                            [Call_file_save "temp_audio/input.wav"])
                   (mkState {[ "temp_audio/input.wav" := [] ]}
                            [Call_AudioSegment_from_file "temp_audio/input.wav";
                             Call_file_save "temp_audio/input.wav"])
                   _ _ _)); vm_compute; reflexivity.
Defined.

(** ** Translation failures do not end the run *)

(** C2. An exception raised inside the translator's [try] block is caught:
    the translator returns the string "Error: " followed by the message of
    the exception.  The translator never raises, and every run of the
    handler that makes a translation call goes on to make a synthesis call.
    When synthesis then succeeds, the handler answers 200 and the field
    [translated_text] carries that error string. *)
Theorem C2_translation_soft_failure (w : World) (request : Request)
    (wav_path : string) (original_text error : pyval) (e : exn)
    (st st1 st2 st3 : State) :
  converted_at w request st wav_path st1 →
  recognize_speech_from_file w wav_path (source_lang_of request) st1
    = (Ok (original_text, error), st2) →
  truthy error = false →
  translate_try w original_text (source_lang_of request)
                (target_lang_of request) st2 = (Raise e, st3) →
  translate_text_content w original_text (source_lang_of request)
                         (target_lang_of request) st2
    = (Ok ("Error: " +:+ exn_str e), st3) ∧
  (∃ (out : pyval) (st4 : State) (new : list call),
     text_to_speech_file w ("Error: " +:+ exn_str e) (target_lang_of request) st3
       = (Ok out, st4) ∧
     trace st4 = new ++ trace st3 ∧ ran Synthesize new = true ∧
     process_voice_translation w request st
       = (Ok (final_response original_text ("Error: " +:+ exn_str e) out), st4) ∧
     (out ≠ PyNone →
      process_voice_translation w request st
        = (Ok ({[ "original_text" := original_text;
                  "translated_text" := PyStr ("Error: " +:+ exn_str e);
                  "audio_file" := out ]}, 200), st4))) ∧
  (∀ (text : pyval) (source_lang target_lang : string) (s : State),
     ∃ (translated : string) (s' : State),
       translate_text_content w text source_lang target_lang s
         = (Ok translated, s')) ∧
  (∀ (request' : Request) (s : State),
     ∃ (r : result Response) (s' : State) (new : list call),
       process_voice_translation w request' s = (r, s') ∧
       trace s' = new ++ trace s ∧
       (ran Translate new = true → ran Synthesize new = true)).
Proof.
  intros Hconv Hr Ht Htr.
  pose proof (translate_catches w _ _ _ _ _ _ Htr) as Hcatch.
  split; [exact Hcatch |]. split; [| split].
  - destruct (synthesize_footprint w ("Error: " +:+ exn_str e)
                (target_lang_of request) st3)
      as (out & files' & new & Hs & _ & Hran).
    exists out, (mkState files' (new ++ trace st3)), new.
    split; [exact Hs |]. split; [reflexivity |]. split; [exact Hran |].
    assert (Hrun : process_voice_translation w request st
              = (Ok (final_response original_text ("Error: " +:+ exn_str e) out),
                 mkState files' (new ++ trace st3))).
    { rewrite (process_converted_at _ _ _ _ _ Hconv).
      by eapply speech_to_speech_continues. }
    split; [exact Hrun |].
    intros Hout. rewrite Hrun. unfold final_response.
    destruct (synthesize_inv w _ _ _ _ _ Hs) as [[[= ->] _] | [[= ->] _]];
      [| done].
    by rewrite mp3_name_nonempty.
  - intros text source_lang target_lang s.
    destruct (translate_footprint w text source_lang target_lang s)
      as (translated & new & H & _).
    by eexists _, _.
  - intros request' s.
    destruct (process_footprint w request' s) as (r & files' & new & H & Himp).
    by exists r, (mkState files' (new ++ trace s)), new.
Qed.

(** Witness of C2: the translation service of the example world is down,
    the clip is recognised as "hello" and synthesis works. *)
Lemma C2_translation_soft_failure_witness :
  let w := demo_world true false in
  let st1 := (convert_audio w (save_upload w [x10] fresh_state).2).2 in
  let st2 := (recognize_speech_from_file w "temp_audio/converted.wav" "English" st1).2 in
  let st3 := (translate_try w (PyStr "hello") "English" "Hindi" st2).2 in
  translate_text_content w (PyStr "hello") "English" "Hindi" st2
    = (Ok "Error: Request exception can happen due to an api connection error.",
       st3).
Proof.
  intros w st1 st2 st3.
  assert (Hconv : converted_at w (demo_request [x10]) fresh_state
                    "temp_audio/converted.wav" st1).
  { exists [x10], (save_upload w [x10] fresh_state).2.
    repeat split; vm_compute; reflexivity. }
  refine (proj1 (C2_translation_soft_failure w (demo_request [x10])
                   "temp_audio/converted.wav" (PyStr "hello") PyNone
                   (Exn OtherException
                      "Request exception can happen due to an api connection error.")
                   fresh_state st1 st2 st3 Hconv _ _ _));
    vm_compute; reflexivity.
Defined.

(** ** Synthesis *)

(** C6. The synthesizer returns the name built from the UUID it has just
    drawn when its [try] block ends normally; when anything in the block
    raises, it prints "TTS Error: " with the message and returns [None];
    it never raises.  When the handler gets [None] from it, the answer is
    500 with the fixed message "Failed to generate speech", in which the
    exception does not appear. *)
Theorem C6_synthesis_failure (w : World) (request : Request)
    (wav_path : string) (original_text error : pyval) (translated : string)
    (st st1 st2 st3 st4 : State) :
  converted_at w request st wav_path st1 →
  recognize_speech_from_file w wav_path (source_lang_of request) st1
    = (Ok (original_text, error), st2) →
  truthy error = false →
  translate_text_content w original_text (source_lang_of request)
                         (target_lang_of request) st2 = (Ok translated, st3) →
  text_to_speech_file w translated (target_lang_of request) st3
    = (Ok PyNone, st4) →
  process_voice_translation w request st
    = (Ok ({[ "error" := PyStr "Failed to generate speech" ]}, 500), st4) ∧
  (∀ (text target_lang : string) (s : State),
     (∀ (out : pyval) (s' : State),
        synthesize_try w text target_lang s = (Ok out, s') →
        text_to_speech_file w text target_lang s = (Ok out, s') ∧
        out = PyStr (uuid4 w (S (length (trace s))) +:+ ".mp3") ∧
        ∃ new : list call, trace s' = new ++ trace s ∧ Call_uuid4 ∈ new) ∧
     (∀ (e : exn) (s' : State),
        synthesize_try w text target_lang s = (Raise e, s') →
        text_to_speech_file w text target_lang s
          = (Ok PyNone,
             mkState (fs s')
                     (Call_print ("TTS Error: " +:+ exn_str e) :: trace s'))) ∧
     (∃ (out : pyval) (s' : State),
        text_to_speech_file w text target_lang s = (Ok out, s'))).
Proof.
  intros Hconv Hr Ht Htr Hs. split.
  - rewrite (process_converted_at _ _ _ _ _ Hconv).
    by rewrite (speech_to_speech_continues _ _ _ _ _ _ _ _ _ _ _ _ Hr Ht Htr Hs).
  - intros text target_lang s. split; [| split].
    + intros out s' Htry.
      split; [by apply synthesize_returns |].
      destruct (synthesize_try_footprint w text target_lang s)
        as (r & files' & new & Hrun & _ & _ & Hok).
      rewrite Htry in Hrun. injection Hrun as <- ->.
      destruct (Hok out eq_refl) as [-> Hin].
      split; [reflexivity |]. by exists new.
    + intros e s'. apply synthesize_catches.
    + destruct (synthesize_footprint w text target_lang s)
        as (out & files' & new & H & _).
      by eexists _, _.
Qed.

(** Witness of C6: the synthesis service of the example world is down. *)
Lemma C6_synthesis_failure_witness :
  process_voice_translation (demo_world false true) (demo_request [x10])
    fresh_state
  = (Ok ({[ "error" := PyStr "Failed to generate speech" ]}, 500),
     (process_voice_translation (demo_world false true) (demo_request [x10])
        fresh_state).2).
Proof.
  pose (w := demo_world false true).
  pose (st1 := (convert_audio w (save_upload w [x10] fresh_state).2).2).
  pose (st2 := (recognize_speech_from_file w "temp_audio/converted.wav" "English" st1).2).
  pose (st3 := (translate_text_content w (PyStr "hello") "English" "Hindi" st2).2).
  assert (Hconv : converted_at w (demo_request [x10]) fresh_state
                    "temp_audio/converted.wav" st1).
  { exists [x10], (save_upload w [x10] fresh_state).2.
    repeat split; vm_compute; reflexivity. }
  refine (proj1 (C6_synthesis_failure w (demo_request [x10])
                   "temp_audio/converted.wav" (PyStr "hello") PyNone "hi:hello"
                   fresh_state st1 st2 st3 _ Hconv _ _ _ _));
    vm_compute; reflexivity.
Defined.

(** ** The successful run *)

(** C7. When recognition returns a text, translation returns and synthesis
    returns a file name, the handler answers 200 with a body that has
    exactly the fields [original_text], [translated_text] and [audio_file],
    holding those three values.  A form without [source_lang] makes the
    source language "English", a form without [target_lang] makes the
    target language "Hindi". *)
Theorem C7_success_response (w : World) (request : Request)
    (wav_path text translated filename : string)
    (st st1 st2 st3 st4 : State) :
  converted_at w request st wav_path st1 →
  recognize_speech_from_file w wav_path (source_lang_of request) st1
    = (Ok (PyStr text, PyNone), st2) →
  translate_text_content w (PyStr text) (source_lang_of request)
                         (target_lang_of request) st2 = (Ok translated, st3) →
  text_to_speech_file w translated (target_lang_of request) st3
    = (Ok (PyStr filename), st4) →
  (∃ body : gmap string pyval,
     process_voice_translation w request st = (Ok (body, 200), st4) ∧
     dom body = {[ "original_text"; "translated_text"; "audio_file" ]} ∧
     body !! "original_text" = Some (PyStr text) ∧
     body !! "translated_text" = Some (PyStr translated) ∧
     body !! "audio_file" = Some (PyStr filename)) ∧
  (form request !! "source_lang" = None → source_lang_of request = "English") ∧
  (form request !! "target_lang" = None → target_lang_of request = "Hindi").
Proof.
  intros Hconv Hr Htr Hs. split; [| split].
  - exists {[ "original_text" := PyStr text;
              "translated_text" := PyStr translated;
              "audio_file" := PyStr filename ]}.
    split.
    + rewrite (process_converted_at _ _ _ _ _ Hconv).
      rewrite (speech_to_speech_continues _ _ _ _ _ _ _ _ _ _ _ _
                 Hr eq_refl Htr Hs).
      unfold final_response.
      destruct (synthesize_inv w _ _ _ _ _ Hs) as [[[= ->] _] | [[=] _]].
      by rewrite mp3_name_nonempty.
    + split; [| by repeat split].
      rewrite !dom_insert_L, dom_singleton_L. set_solver.
  - intros H. unfold source_lang_of, dict_get. by rewrite H.
  - intros H. unfold target_lang_of, dict_get. by rewrite H.
Qed.

(** Witness of C7: a clip that is recognised, with the form left empty. *)
Lemma C7_success_response_witness :
  ∃ body : gmap string pyval,
    (process_voice_translation (demo_world false false) (demo_request [x10])
       fresh_state).1 = Ok (body, 200) ∧
    dom body = {[ "original_text"; "translated_text"; "audio_file" ]} ∧
    body !! "original_text" = Some (PyStr "hello") ∧
    body !! "translated_text" = Some (PyStr "hi:hello") ∧
    body !! "audio_file" = Some (PyStr "7d9f3c1e-5a2b-4c8d-9e0f-9.mp3").
Proof.
  pose (w := demo_world false false).
  pose (st1 := (convert_audio w (save_upload w [x10] fresh_state).2).2).
  pose (st2 := (recognize_speech_from_file w "temp_audio/converted.wav" "English" st1).2).
  pose (st3 := (translate_text_content w (PyStr "hello") "English" "Hindi" st2).2).
  pose (st4 := (text_to_speech_file w "hi:hello" "Hindi" st3).2).
  assert (Hconv : converted_at w (demo_request [x10]) fresh_state
                    "temp_audio/converted.wav" st1).
  { exists [x10], (save_upload w [x10] fresh_state).2.
    repeat split; vm_compute; reflexivity. }
  assert (Hr : recognize_speech_from_file w "temp_audio/converted.wav"
                 (source_lang_of (demo_request [x10])) st1
               = (Ok (PyStr "hello", PyNone), st2))
    by (vm_compute; reflexivity).
  assert (Htr : translate_text_content w (PyStr "hello")
                  (source_lang_of (demo_request [x10]))
                  (target_lang_of (demo_request [x10])) st2
                = (Ok "hi:hello", st3))
    by (vm_compute; reflexivity).
  assert (Hs : text_to_speech_file w "hi:hello"
                 (target_lang_of (demo_request [x10])) st3
               = (Ok (PyStr "7d9f3c1e-5a2b-4c8d-9e0f-9.mp3"), st4))
    by (vm_compute; reflexivity).
  destruct (C7_success_response w (demo_request [x10])
              "temp_audio/converted.wav" "hello" "hi:hello"
              "7d9f3c1e-5a2b-4c8d-9e0f-9.mp3"
              fresh_state st1 st2 st3 st4 Hconv Hr Htr Hs)
    as ((body & Hrun & Hbody) & _).
  exists body. fold w. rewrite Hrun. split; [reflexivity | exact Hbody].
Defined.

(** ** Recognition errors and the truth test of the handler *)

Lemma truthy_nonempty (s : string) : s ≠ "" → truthy (PyStr s) = true.
Proof. by destruct s. Qed.

(** C9. The handler tests the truth value of the recognizer's error, not
    whether it is [None].  When the catch-all clause of the recognizer
    handles an exception, it returns [None] as text and the message of the
    exception as error; with a non-empty message the handler halts with 400
    and that message, but with the empty message it goes on: translation
    and synthesis are called, with [None] as the original text, and the
    handler answers from their results. *)
Theorem C9_empty_error_message_continues (w : World) (request : Request)
    (wav_path : string) (e : exn) (st st1 st2 : State) :
  converted_at w request st wav_path st1 →
  recognize_try w wav_path (speech_code (source_lang_of request)) st1
    = (Raise e, st2) →
  exn_cls e = OtherException →
  recognize_speech_from_file w wav_path (source_lang_of request) st1
    = (Ok (PyNone, PyStr (exn_str e)), st2) ∧
  (exn_str e ≠ "" →
   process_voice_translation w request st
     = (Ok ({[ "error" := PyStr (exn_str e) ]}, 400), st2)) ∧
  (exn_str e = "" →
   ∃ (translated : string) (st3 : State) (out : pyval) (st4 : State)
     (new : list call),
     translate_text_content w PyNone (source_lang_of request)
                            (target_lang_of request) st2
       = (Ok translated, st3) ∧
     text_to_speech_file w translated (target_lang_of request) st3
       = (Ok out, st4) ∧
     trace st4 = new ++ trace st2 ∧
     ran Translate new = true ∧ ran Synthesize new = true ∧
     process_voice_translation w request st
       = (Ok (final_response PyNone translated out), st4) ∧
     (out ≠ PyNone →
      process_voice_translation w request st
        = (Ok ({[ "original_text" := PyNone;
                  "translated_text" := PyStr translated;
                  "audio_file" := out ]}, 200), st4))).
Proof.
  intros Hconv Htry Hcls.
  assert (Hr : recognize_speech_from_file w wav_path (source_lang_of request) st1
               = (Ok (PyNone, PyStr (exn_str e)), st2)).
  { rewrite (recognize_catches w _ _ _ _ _ Htry).
    unfold recognition_error_message. by rewrite Hcls. }
  split; [exact Hr |]. split.
  - intros Hne. rewrite (process_converted_at _ _ _ _ _ Hconv).
    eapply speech_to_speech_halts; [exact Hr |]. by apply truthy_nonempty.
  - intros Hempty. rewrite Hempty in Hr.
    destruct (translate_footprint w PyNone (source_lang_of request)
                (target_lang_of request) st2)
      as (translated & new2 & Htr & _ & Hran2).
    destruct (synthesize_footprint w translated (target_lang_of request)
                (mkState (fs st2) (new2 ++ trace st2)))
      as (out & files' & new3 & Hs & _ & Hran3).
    simpl in Hs.
    exists translated, (mkState (fs st2) (new2 ++ trace st2)), out,
      (mkState files' (new3 ++ new2 ++ trace st2)), (new3 ++ new2).
    split; [exact Htr |]. split; [exact Hs |].
    split; [simpl; by rewrite app_assoc |].
    split; [by rewrite ran_app, Hran2, orb_true_r |].
    split; [by rewrite ran_app, Hran3 |].
    assert (Hrun : process_voice_translation w request st
              = (Ok (final_response PyNone translated out),
                 mkState files' (new3 ++ new2 ++ trace st2))).
    { rewrite (process_converted_at _ _ _ _ _ Hconv).
      by eapply speech_to_speech_continues. }
    split; [exact Hrun |].
    intros Hout. rewrite Hrun. unfold final_response.
    destruct (synthesize_inv w _ _ _ _ _ Hs) as [[[= ->] _] | [[= ->] _]];
      [| done].
    by rewrite mp3_name_nonempty.
Qed.

(** Witness of C9: the recognition service of the example world raises an
    exception whose message is empty. *)
Lemma C9_empty_error_message_continues_witness :
  let w := demo_world false false in
  let st1 := (convert_audio w (save_upload w [x02] fresh_state).2).2 in
  recognize_speech_from_file w "temp_audio/converted.wav" "English" st1
    = (Ok (PyNone, PyStr ""),
       (recognize_try w "temp_audio/converted.wav" "en-US" st1).2).
Proof.
  intros w st1.
  assert (Hconv : converted_at w (demo_request [x02]) fresh_state
                    "temp_audio/converted.wav" st1).
  { exists [x02], (save_upload w [x02] fresh_state).2.
    repeat split; vm_compute; reflexivity. }
  refine (proj1 (C9_empty_error_message_continues w (demo_request [x02])
                   "temp_audio/converted.wav" (Exn OtherException "")
                   fresh_state st1 _ Hconv _ _));
    vm_compute; reflexivity.
Defined.

(** C3, at the input on which the code departs from it.  In the example
    world the recognition service answers the clip [x02] with an exception
    whose message is empty.  The recognizer returns an error, the empty
    string; the handler does not answer 400 and does not halt: it calls
    translation and synthesis and answers 200. *)
Theorem C3_empty_recognition_error_not_halted :
  let w := demo_world false false in
  let request := demo_request [x02] in
  ∃ st1 st2 st' : State,
    converted_at w request fresh_state "temp_audio/converted.wav" st1 ∧
    recognize_speech_from_file w "temp_audio/converted.wav"
        (source_lang_of request) st1
      = (Ok (PyNone, PyStr ""), st2) ∧
    process_voice_translation w request fresh_state
      = (Ok ({[ "original_text" := PyNone;
                "translated_text" := PyStr "Error: None --> text must be a valid text";
                "audio_file" := PyStr "7d9f3c1e-5a2b-4c8d-9e0f-9.mp3" ]}, 200),
         st') ∧
    ran Translate (trace st') = true ∧
    ran Synthesize (trace st') = true.
Proof.
  intros w request.
  eexists _, _, _. split.
  - exists [x02], (save_upload w [x02] fresh_state).2.
    repeat split; vm_compute; reflexivity.
  - split; [vm_compute; reflexivity |].
    split; [vm_compute; reflexivity |].
    split; vm_compute; reflexivity.
Qed.

(** ** The shape of a synthesis result *)

(** C10. Whatever the text, the language and the state, the synthesizer
    returns either [None] or the string made of the UUID it drew and
    ".mp3"; it never returns the empty string, so [not out] is true exactly
    when [out] is [None].  In the handler, the 500 answer of step C is
    therefore given exactly for [None], and a file name always reaches the
    200 answer. *)
Theorem C10_synthesis_result_shape (w : World) (request : Request)
    (wav_path : string) (original_text error : pyval) (translated : string)
    (r : result pyval) (st st1 st2 st3 st4 : State) :
  converted_at w request st wav_path st1 →
  recognize_speech_from_file w wav_path (source_lang_of request) st1
    = (Ok (original_text, error), st2) →
  truthy error = false →
  translate_text_content w original_text (source_lang_of request)
                         (target_lang_of request) st2 = (Ok translated, st3) →
  text_to_speech_file w translated (target_lang_of request) st3 = (r, st4) →
  ((r = Ok PyNone ∧
    process_voice_translation w request st
      = (Ok ({[ "error" := PyStr "Failed to generate speech" ]}, 500), st4)) ∨
   (∃ filename : string,
      r = Ok (PyStr filename) ∧
      filename = uuid4 w (S (length (trace st3))) +:+ ".mp3" ∧
      filename ≠ "" ∧
      process_voice_translation w request st
        = (Ok ({[ "original_text" := original_text;
                  "translated_text" := PyStr translated;
                  "audio_file" := PyStr filename ]}, 200), st4))) ∧
  (∀ (text target_lang : string) (s : State),
     ∃ (out : pyval) (s' : State),
       text_to_speech_file w text target_lang s = (Ok out, s') ∧
       (out = PyNone ∨
        out = PyStr (uuid4 w (S (length (trace s))) +:+ ".mp3")) ∧
       out ≠ PyStr "" ∧
       (negb (truthy out) = true ↔ out = PyNone)).
Proof.
  intros Hconv Hr Ht Htr Hs. split.
  - destruct (synthesize_inv w _ _ _ _ _ Hs) as [[-> _] | [-> _]].
    + right. eexists. split; [reflexivity |]. split; [reflexivity |].
      split; [by destruct (uuid4 w _) |].
      rewrite (process_converted_at _ _ _ _ _ Hconv).
      rewrite (speech_to_speech_continues _ _ _ _ _ _ _ _ _ _ _ _ Hr Ht Htr Hs).
      unfold final_response. by rewrite mp3_name_nonempty.
    + left. split; [reflexivity |].
      rewrite (process_converted_at _ _ _ _ _ Hconv).
      by rewrite (speech_to_speech_continues _ _ _ _ _ _ _ _ _ _ _ _ Hr Ht Htr Hs).
  - intros text target_lang s.
    destruct (text_to_speech_file w text target_lang s) as [r' s'] eqn:Hrun.
    destruct (synthesize_inv w _ _ _ _ _ Hrun) as [[-> _] | [-> _]].
    + eexists _, _. split; [reflexivity |]. split; [by right |].
      split; [by destruct (uuid4 w _) |].
      rewrite mp3_name_nonempty. simpl. split; discriminate.
    + eexists _, _. split; [reflexivity |]. split; [by left |]. by split.
Qed.

(** Witness of C10: the successful run of the example world. *)
Lemma C10_synthesis_result_shape_witness :
  let w := demo_world false false in
  ∃ (out : pyval) (s' : State),
    text_to_speech_file w "hi:hello" "Hindi" fresh_state = (Ok out, s') ∧
    (out = PyNone ∨ out = PyStr (uuid4 w 1 +:+ ".mp3")) ∧
    out ≠ PyStr "" ∧
    (negb (truthy out) = true ↔ out = PyNone).
Proof.
  intros w.
  pose (st1 := (convert_audio w (save_upload w [x10] fresh_state).2).2).
  pose (st2 := (recognize_speech_from_file w "temp_audio/converted.wav" "English" st1).2).
  pose (st3 := (translate_text_content w (PyStr "hello") "English" "Hindi" st2).2).
  pose (st4 := (text_to_speech_file w "hi:hello" "Hindi" st3).2).
  assert (Hconv : converted_at w (demo_request [x10]) fresh_state
                    "temp_audio/converted.wav" st1).
  { exists [x10], (save_upload w [x10] fresh_state).2.
    repeat split; vm_compute; reflexivity. }
  assert (Hr : recognize_speech_from_file w "temp_audio/converted.wav"
                 (source_lang_of (demo_request [x10])) st1
               = (Ok (PyStr "hello", PyNone), st2))
    by (vm_compute; reflexivity).
  assert (Htr : translate_text_content w (PyStr "hello")
                  (source_lang_of (demo_request [x10]))
                  (target_lang_of (demo_request [x10])) st2
                = (Ok "hi:hello", st3))
    by (vm_compute; reflexivity).
  assert (Hs : text_to_speech_file w "hi:hello"
                 (target_lang_of (demo_request [x10])) st3
               = (Ok (PyStr "7d9f3c1e-5a2b-4c8d-9e0f-9.mp3"), st4))
    by (vm_compute; reflexivity).
  exact (proj2 (C10_synthesis_result_shape w (demo_request [x10])
                  "temp_audio/converted.wav" (PyStr "hello") PyNone "hi:hello"
                  _ fresh_state st1 st2 st3 st4 Hconv Hr eq_refl Htr Hs)
               "hi:hello" "Hindi" fresh_state).
Defined.

(** ** Two runs of the same request *)

Lemma string_length_app (s t : string) :
  String.length (s +:+ t) = String.length s + String.length t.
Proof. induction s as [| a s IH]; simpl; [reflexivity | by rewrite IH]. Qed.

Lemma string_app_inv_tail (t s1 s2 : string) :
  s1 +:+ t = s2 +:+ t → s1 = s2.
Proof.
  revert s2. induction s1 as [| a s1 IH]; intros [| b s2] H; simpl in H.
  - reflexivity.
  - apply (f_equal String.length) in H.
    rewrite !string_length_app in H. simpl in H. lia.
  - apply (f_equal String.length) in H.
    rewrite !string_length_app in H. simpl in H. lia.
  - injection H as -> H. f_equal. by apply IH.
Qed.

Section TwoRuns.

Variable w : World.
Hypothesis Hrec : recognition_deterministic w.
Hypothesis Htrans : translation_deterministic w.

(** Saving the same upload in two states makes the same call and leaves the
    same bytes under the input name. *)
Lemma save_upload_two_runs (file : bytes) (sa sb : State) :
  ∀ sa0 sb0 : State,
    save_upload w file sa = (Ok tt, sa0) →
    save_upload w file sb = (Ok tt, sb0) →
    trace sa0 = Call_file_save (path_join UPLOAD_FOLDER "input.wav") :: trace sa ∧
    trace sb0 = Call_file_save (path_join UPLOAD_FOLDER "input.wav") :: trace sb ∧
    fs sa0 !! path_join UPLOAD_FOLDER "input.wav"
    = fs sb0 !! path_join UPLOAD_FOLDER "input.wav".
Proof.
  intros sa0 sb0. unfold save_upload. run_M.
  destruct (file_save w (length (trace sa)) file) as [[] | ea]; [| discriminate].
  destruct (file_save w (length (trace sb)) file) as [[] | eb]; [| discriminate].
  intros [= <-] [= <-]. simpl.
  split; [reflexivity |]. split; [reflexivity |].
  by rewrite !lookup_insert_eq.
Qed.

(** Converting the same bytes gives the same result and the same converted
    bytes. *)
Lemma convert_two_runs (sa0 sb0 : State) :
  fs sa0 !! path_join UPLOAD_FOLDER "input.wav"
  = fs sb0 !! path_join UPLOAD_FOLDER "input.wav" →
  ∃ (r : Response + string) (fa fb : gmap string (list byte))
    (new : list call),
    convert_audio w sa0 = (Ok r, mkState fa (new ++ trace sa0)) ∧
    convert_audio w sb0 = (Ok r, mkState fb (new ++ trace sb0)) ∧
    (∀ wav_path : string, r = inr wav_path → fa !! wav_path = fb !! wav_path).
Proof.
  intros Hsame. unfold convert_audio, convert_try. run_M.
  destruct sa0 as [fa0 tra], sb0 as [fb0 trb]; simpl in *.
  rewrite <- Hsame.
  destruct (fa0 !! path_join UPLOAD_FOLDER "input.wav") as [raw |]; simpl.
  - destruct (AudioSegment_from_file w raw) as [audio | e]; simpl.
    + destruct (AudioSegment_export w audio) as [wav | e]; simpl.
      * eexists _, _, _,
          [Call_export (path_join UPLOAD_FOLDER "converted.wav");
           Call_AudioSegment_from_file (path_join UPLOAD_FOLDER "input.wav")].
        split; [reflexivity |]. split; [reflexivity |].
        intros wav_path [= <-]. by rewrite !lookup_insert_eq.
      * eexists _, _, _,
          [Call_export (path_join UPLOAD_FOLDER "converted.wav");
           Call_AudioSegment_from_file (path_join UPLOAD_FOLDER "input.wav")].
        split; [reflexivity |]. split; [reflexivity |]. discriminate.
    + eexists _, _, _,
        [Call_AudioSegment_from_file (path_join UPLOAD_FOLDER "input.wav")].
      split; [reflexivity |]. split; [reflexivity |]. discriminate.
  - eexists _, _, _, []. split; [reflexivity |]. split; [reflexivity |].
    discriminate.
Qed.

(** Recognising the same file gives the same pair and makes the same
    calls. *)
Lemma recognize_two_runs (file_path language_name : string) (sa sb : State) :
  fs sa !! file_path = fs sb !! file_path →
  ∃ (v : pyval * pyval) (new : list call),
    recognize_speech_from_file w file_path language_name sa
      = (Ok v, mkState (fs sa) (new ++ trace sa)) ∧
    recognize_speech_from_file w file_path language_name sb
      = (Ok v, mkState (fs sb) (new ++ trace sb)).
Proof.
  intros Hsame. unfold recognize_speech_from_file, recognize_try. run_M.
  destruct sa as [fa tra], sb as [fb trb]; simpl in *.
  rewrite <- Hsame.
  destruct (fa !! file_path) as [wav |]; simpl.
  - destruct (AudioFile w wav) as [source | e]; simpl.
    + destruct (Recognizer_record w source) as [audio_data | e]; simpl.
      * rewrite (Hrec (S (S (length trb))) (S (S (length tra)))).
        destruct (recognize_google w _ audio_data _) as [text | e]; simpl;
          [| destruct (exn_cls e); simpl];
          eexists _,
            [Call_recognize_google (speech_code language_name); Call_record;
             Call_AudioFile file_path];
          (split; reflexivity).
      * destruct (exn_cls e); simpl;
          eexists _, [Call_record; Call_AudioFile file_path];
          (split; reflexivity).
    + destruct (exn_cls e); simpl;
        eexists _, [Call_AudioFile file_path]; (split; reflexivity).
  - eexists _, []. split; reflexivity.
Qed.

(** Translating the same text gives the same string and makes the same
    calls. *)
Lemma translate_two_runs (text : pyval) (source_lang target_lang : string)
    (sa sb : State) :
  ∃ (translated : string) (new : list call),
    translate_text_content w text source_lang target_lang sa
      = (Ok translated, mkState (fs sa) (new ++ trace sa)) ∧
    translate_text_content w text source_lang target_lang sb
      = (Ok translated, mkState (fs sb) (new ++ trace sb)).
Proof.
  unfold translate_text_content, translate_try. run_M.
  destruct sa as [fa tra], sb as [fb trb]; simpl in *.
  destruct (GoogleTranslator w _ _) as [[] | e]; simpl.
  - rewrite (Htrans (S (length trb)) (S (length tra))).
    destruct (translate w _ _ _ text) as [translated | e]; simpl;
      eexists _,
        [Call_translate text;
         Call_GoogleTranslator (src_trans_code source_lang)
                               (tgt_trans_code target_lang)];
      (split; reflexivity).
  - eexists _,
      [Call_GoogleTranslator (src_trans_code source_lang)
                             (tgt_trans_code target_lang)].
    split; reflexivity.
Qed.

End TwoRuns.

(** A 200 answer comes from the last line of the handler: every step
    before it has returned, and the body is the one built there. *)
Lemma process_200_inv (w : World) (request : Request)
    (body : gmap string pyval) (s s' : State) :
  process_voice_translation w request s = (Ok (body, 200), s') →
  ∃ (file : bytes) (s0 : State) (wav_path : string) (s1 : State)
    (original_text error : pyval) (s2 : State) (translated : string)
    (s3 : State) (filename : string),
    files request !! "audio" = Some file ∧
    save_upload w file s = (Ok tt, s0) ∧
    convert_audio w s0 = (Ok (inr wav_path), s1) ∧
    recognize_speech_from_file w wav_path (source_lang_of request) s1
      = (Ok (original_text, error), s2) ∧
    truthy error = false ∧
    translate_text_content w original_text (source_lang_of request)
                           (target_lang_of request) s2 = (Ok translated, s3) ∧
    text_to_speech_file w translated (target_lang_of request) s3
      = (Ok (PyStr filename), s') ∧
    filename = uuid4 w (S (length (trace s3))) +:+ ".mp3" ∧
    body = {[ "original_text" := original_text;
              "translated_text" := PyStr translated;
              "audio_file" := PyStr filename ]}.
Proof.
  intros Hrun.
  destruct (files request !! "audio") as [file |] eqn:Hf;
    [| rewrite (process_no_audio w _ _ Hf) in Hrun; discriminate].
  destruct (save_upload w file s) as [[[] | e] s0] eqn:Hs;
    [| rewrite (process_save_raises w _ _ _ _ _ Hf Hs) in Hrun; discriminate].
  destruct (convert_footprint w s0) as (r0 & files1 & new0 & Hc & _ & H500).
  destruct r0 as [response | wav_path].
  { rewrite (process_not_converted w _ _ _ _ _ _ Hf Hs Hc) in Hrun.
    injection Hrun as Hresp _. specialize (H500 response eq_refl).
    rewrite Hresp in H500. discriminate. }
  rewrite (process_converted w _ _ _ _ _ _ Hf Hs Hc) in Hrun.
  set (s1 := mkState files1 (new0 ++ trace s0)) in *.
  destruct (recognize_footprint w wav_path (source_lang_of request) s1)
    as (ot & err & new1 & Hr & _).
  set (s2 := mkState (fs s1) (new1 ++ trace s1)) in *.
  destruct (truthy err) eqn:Ht.
  { rewrite (speech_to_speech_halts w _ _ (target_lang_of request) _ _ _ _ Hr Ht)
      in Hrun. discriminate. }
  destruct (translate_footprint w ot (source_lang_of request)
              (target_lang_of request) s2)
    as (translated & new2 & Htr & _).
  set (s3 := mkState (fs s2) (new2 ++ trace s2)) in *.
  destruct (text_to_speech_file w translated (target_lang_of request) s3)
    as [r3 s4] eqn:Hsy.
  destruct (synthesize_inv w _ _ _ _ _ Hsy) as [[-> _] | [-> _]].
  - rewrite (speech_to_speech_continues w _ _ _ _ _ _ _ _ _ _ _ Hr Ht Htr Hsy)
      in Hrun.
    unfold final_response in Hrun. rewrite mp3_name_nonempty in Hrun.
    simpl in Hrun. injection Hrun as <- <-.
    by eexists file, s0, wav_path, _, ot, err, _, translated, _, _.
  - rewrite (speech_to_speech_continues w _ _ _ _ _ _ _ _ _ _ _ Hr Ht Htr Hsy)
      in Hrun.
    discriminate.
Qed.

(** C8, as amended.  Take two successful runs of the handler on the same
    request, from any two states.  If the recognition and translation
    services are deterministic, the two answers have the same
    [original_text] and the same [translated_text].  Their [audio_file]
    values are different when, in addition, no UUID is drawn twice and the
    two runs start at different moments of the process, that is after
    different numbers of calls; this is the case in particular when one run
    starts after the other has ended.  Without the assumption on the UUIDs
    the two names can be equal: see the counterexample below. *)
Theorem C8_same_request_twice (w : World) (request : Request)
    (body_a body_b : gmap string pyval) (sa sa' sb sb' : State) :
  recognition_deterministic w →
  translation_deterministic w →
  process_voice_translation w request sa = (Ok (body_a, 200), sa') →
  process_voice_translation w request sb = (Ok (body_b, 200), sb') →
  (body_a !! "original_text" = body_b !! "original_text" ∧
   is_Some (body_a !! "original_text") ∧
   body_a !! "translated_text" = body_b !! "translated_text" ∧
   is_Some (body_a !! "translated_text") ∧
   is_Some (body_a !! "audio_file") ∧ is_Some (body_b !! "audio_file")) ∧
  (uuid4_never_repeats w →
   length (trace sa) ≠ length (trace sb) →
   body_a !! "audio_file" ≠ body_b !! "audio_file") ∧
  (uuid4_never_repeats w →
   (∃ between : list call, trace sb = between ++ trace sa') →
   body_a !! "audio_file" ≠ body_b !! "audio_file").
Proof.
  intros Hrec Htrans Hrun_a Hrun_b.
  destruct (process_200_inv w _ _ _ _ Hrun_a)
    as (file & sa0 & wav_a & sa1 & ot_a & err_a & sa2 & tr_a & sa3 & name_a
        & Hf & Hs_a & Hc_a & Hr_a & Ht_a & Htr_a & Hsy_a & Hname_a & ->).
  destruct (process_200_inv w _ _ _ _ Hrun_b)
    as (file' & sb0 & wav_b & sb1 & ot_b & err_b & sb2 & tr_b & sb3 & name_b
        & Hf' & Hs_b & Hc_b & Hr_b & Ht_b & Htr_b & Hsy_b & Hname_b & ->).
  rewrite Hf in Hf'. injection Hf' as <-.
  (* the two runs step by step *)
  destruct (save_upload_two_runs w file sa sb sa0 sb0 Hs_a Hs_b)
    as (Htra0 & Htrb0 & Hsame0).
  destruct (convert_two_runs w sa0 sb0 Hsame0)
    as (r & fa & fb & new_c & Hc_a' & Hc_b' & Hsame1).
  rewrite Hc_a in Hc_a'. injection Hc_a' as <- ->.
  rewrite Hc_b in Hc_b'. injection Hc_b' as -> ->.
  specialize (Hsame1 wav_a eq_refl).
  destruct (recognize_two_runs w Hrec wav_a (source_lang_of request)
              (mkState fa (new_c ++ trace sa0)) (mkState fb (new_c ++ trace sb0))
              Hsame1)
    as (v & new_r & Hr_a' & Hr_b').
  rewrite Hr_a in Hr_a'. injection Hr_a' as <- ->.
  rewrite Hr_b in Hr_b'. injection Hr_b' as -> -> ->.
  destruct (translate_two_runs w Htrans ot_a (source_lang_of request)
              (target_lang_of request)
              (mkState fa (new_r ++ new_c ++ trace sa0))
              (mkState fb (new_r ++ new_c ++ trace sb0)))
    as (tr & new_t & Htr_a' & Htr_b').
  simpl in Htr_a, Htr_b.
  rewrite Htr_a in Htr_a'. injection Htr_a' as <- ->.
  rewrite Htr_b in Htr_b'. injection Htr_b' as -> ->.
  (* the calls the first run makes *)
  destruct (synthesize_footprint w tr_a (target_lang_of request)
              (mkState fa (new_t ++ new_r ++ new_c ++ trace sa0)))
    as (out & files' & new_y & Hsy_a' & _).
  rewrite Hsy_a in Hsy_a'. injection Hsy_a' as _ ->.
  simpl in *.
  (* different moments give different names *)
  assert (Hdiff : uuid4_never_repeats w →
                  length (trace sa) ≠ length (trace sb) →
                  Some (PyStr name_a) ≠ Some (PyStr name_b)).
  { intros Huuid Hlen. subst name_a name_b. intros Heq.
    assert (Hnames : uuid4 w (S (length (new_t ++ new_r ++ new_c ++ trace sa0)))
                     +:+ ".mp3"
                   = uuid4 w (S (length (new_t ++ new_r ++ new_c ++ trace sb0)))
                     +:+ ".mp3").
    { assert (Hinj : ∀ x y : string,
                Some (PyStr x) = Some (PyStr y) → x = y) by (by intros x y [=]).
      apply Hinj. exact Heq. }
    apply string_app_inv_tail, Huuid in Hnames.
    rewrite Htra0, Htrb0, !length_app in Hnames. simpl in Hnames. lia. }
  split; [| split].
  - repeat split; try done; by eexists.
  - exact Hdiff.
  - intros Huuid [between Hlater]. apply (Hdiff Huuid).
    rewrite Hlater, Htra0, !length_app. simpl. lia.
Qed.

(** The example world answers recognition and translation without looking
    at the call count, and numbers its UUIDs. *)
Lemma demo_world_recognition_deterministic (translation_down synthesis_down : bool) :
  recognition_deterministic (demo_world translation_down synthesis_down).
Proof. intros t t' audio_data language. reflexivity. Defined.

Lemma demo_world_translation_deterministic (translation_down synthesis_down : bool) :
  translation_deterministic (demo_world translation_down synthesis_down).
Proof. intros t t' source target text. reflexivity. Defined.

Lemma demo_world_uuid4_never_repeats (translation_down synthesis_down : bool) :
  uuid4_never_repeats (demo_world translation_down synthesis_down).
Proof.
  intros t t' H. simpl in H.
  apply String.app_inj in H. by apply pretty_nat_inj in H.
Defined.

(** Witness of C8: the same clip sent twice in a row to the example
    world. *)
Lemma C8_same_request_twice_witness :
  let w := demo_world false false in
  let first := process_voice_translation w (demo_request [x10]) fresh_state in
  let second := process_voice_translation w (demo_request [x10]) first.2 in
  ∃ body_a body_b : gmap string pyval,
    first.1 = Ok (body_a, 200) ∧ second.1 = Ok (body_b, 200) ∧
    body_a !! "audio_file" = Some (PyStr "7d9f3c1e-5a2b-4c8d-9e0f-9.mp3") ∧
    body_b !! "audio_file" = Some (PyStr "7d9f3c1e-5a2b-4c8d-9e0f-20.mp3") ∧
    body_a !! "audio_file" ≠ body_b !! "audio_file" ∧
    body_a !! "original_text" = body_b !! "original_text" ∧
    body_a !! "translated_text" = body_b !! "translated_text".
Proof.
  intros w first second.
  pose (body_a := ({[ "original_text" := PyStr "hello";
                      "translated_text" := PyStr "hi:hello";
                      "audio_file" := PyStr "7d9f3c1e-5a2b-4c8d-9e0f-9.mp3" ]}
                   : gmap string pyval)).
  pose (body_b := ({[ "original_text" := PyStr "hello";
                      "translated_text" := PyStr "hi:hello";
                      "audio_file" := PyStr "7d9f3c1e-5a2b-4c8d-9e0f-20.mp3" ]}
                   : gmap string pyval)).
  assert (Ha : process_voice_translation w (demo_request [x10]) fresh_state
               = (Ok (body_a, 200), first.2)) by (vm_compute; reflexivity).
  assert (Hb : process_voice_translation w (demo_request [x10]) first.2
               = (Ok (body_b, 200), second.2)) by (vm_compute; reflexivity).
  destruct (C8_same_request_twice w (demo_request [x10]) body_a body_b
              fresh_state first.2 first.2 second.2
              (demo_world_recognition_deterministic false false)
              (demo_world_translation_deterministic false false)
              Ha Hb)
    as ((Horig & _ & Htrans & _) & _ & Hdiff).
  exists body_a, body_b.
  split; [vm_compute; reflexivity |]. split; [vm_compute; reflexivity |].
  split; [reflexivity |]. split; [reflexivity |].
  split; [| split; [exact Horig | exact Htrans]].
  apply Hdiff; [apply demo_world_uuid4_never_repeats |].
  exists []. reflexivity.
Defined.

(** C8 as stated fails.  In the world whose UUID generator repeats itself,
    recognition and translation are deterministic, the same request is sent
    twice in a row, both runs succeed, and the two answers carry the same
    [audio_file]. *)
Lemma C8_repeated_uuid_counterexample :
  let w := repeating_uuid_world in
  let first := process_voice_translation w (demo_request [x10]) fresh_state in
  let second := process_voice_translation w (demo_request [x10]) first.2 in
  recognition_deterministic w ∧
  translation_deterministic w ∧
  ∃ body_a body_b : gmap string pyval,
    first.1 = Ok (body_a, 200) ∧ second.1 = Ok (body_b, 200) ∧
    ¬ (body_a !! "audio_file" ≠ body_b !! "audio_file").
Proof.
  intros w first second.
  split; [intros t t' audio_data language; reflexivity |].
  split; [intros t t' source target text; reflexivity |].
  exists {[ "original_text" := PyStr "hello";
            "translated_text" := PyStr "hi:hello";
            "audio_file" := PyStr "7d9f3c1e-5a2b-4c8d-9e0f-3b1a6c5d4e2f.mp3" ]},
         {[ "original_text" := PyStr "hello";
            "translated_text" := PyStr "hi:hello";
            "audio_file" := PyStr "7d9f3c1e-5a2b-4c8d-9e0f-3b1a6c5d4e2f.mp3" ]}.
  split; [vm_compute; reflexivity |]. split; [vm_compute; reflexivity |].
  intros Hne. by apply Hne.
Qed.

(** * Further properties of the handler *)

(** ** Exceptions that leave the handler *)

Lemma save_upload_run (w : World) (file : bytes) (st : State) :
  save_upload w file st
  = match file_save w (length (trace st)) file with
    | Ok _ =>
        (Ok tt,
         mkState (<[path_join UPLOAD_FOLDER "input.wav" := file]> (fs st))
                 (Call_file_save (path_join UPLOAD_FOLDER "input.wav") :: trace st))
    | Raise e =>
        (Raise e,
         mkState (fs st)
                 (Call_file_save (path_join UPLOAD_FOLDER "input.wav") :: trace st))
    end.
Proof.
  unfold save_upload. run_M. by destruct (file_save w _ file) as [[] | e].
Qed.

(** What makes the handler raise. *)
Lemma process_raises_inv (w : World) (request : Request) (e : exn)
    (st st' : State) :
  process_voice_translation w request st = (Raise e, st') →
  ∃ file : bytes,
    files request !! "audio" = Some file ∧
    save_upload w file st = (Raise e, st').
Proof.
  intros Hrun.
  destruct (files request !! "audio") as [file |] eqn:Hf;
    [| rewrite (process_no_audio w _ _ Hf) in Hrun; discriminate].
  exists file. split; [reflexivity |].
  destruct (save_upload w file st) as [[[] | e0] s0] eqn:Hs.
  - destruct (convert_footprint w s0) as (r0 & files1 & new0 & Hc & _).
    destruct r0 as [response | wav_path].
    + rewrite (process_not_converted w _ _ _ _ _ _ Hf Hs Hc) in Hrun.
      discriminate.
    + rewrite (process_converted w _ _ _ _ _ _ Hf Hs Hc) in Hrun.
      set (s1 := mkState files1 (new0 ++ trace s0)) in *.
      destruct (recognize_footprint w wav_path (source_lang_of request) s1)
        as (ot & err & new1 & Hr & _).
      destruct (truthy err) eqn:Ht.
      * rewrite (speech_to_speech_halts w _ _ (target_lang_of request)
                   _ _ _ _ Hr Ht) in Hrun. discriminate.
      * destruct (translate_footprint w ot (source_lang_of request)
                    (target_lang_of request)
                    (mkState (fs s1) (new1 ++ trace s1)))
          as (translated & new2 & Htr & _).
        destruct (synthesize_footprint w translated (target_lang_of request)
                    (mkState (fs s1) (new2 ++ new1 ++ trace s1)))
          as (out & files3 & new3 & Hsy & _).
        simpl in Htr, Hsy.
        rewrite (speech_to_speech_continues w _ _ _ _ _ _ _ _ _ _ _
                   Hr Ht Htr Hsy) in Hrun.
        discriminate.
  - rewrite (process_save_raises w _ _ _ _ _ Hf Hs) in Hrun.
    by injection Hrun as -> ->.
Qed.



(** ** The responses of the handler *)

Lemma truthy_inv (v : pyval) :
  truthy v = true → ∃ s : string, v = PyStr s ∧ s ≠ "".
Proof.
  destruct v as [| s]; [discriminate |].
  destruct s; [discriminate |]. intros _. by eexists.
Qed.



(** ** The recognizer *)


(** The calls made before step A are those of saving and converting. *)
Lemma converted_at_trace (w : World) (request : Request) (st : State)
    (wav_path : string) (st1 : State) :
  converted_at w request st wav_path st1 →
  ∃ new : list call,
    trace st1 = new ++ trace st ∧ calls_in [Save; Normalize] new.
Proof.
  intros (file & st0 & _ & Hs & Hc).
  destruct (save_upload_footprint w file st) as (r & files0 & Hs').
  rewrite Hs in Hs'. injection Hs' as _ ->.
  destruct (convert_footprint w
              (mkState files0
                 (Call_file_save (path_join UPLOAD_FOLDER "input.wav") :: trace st)))
    as (r1 & files1 & new & Hc' & Hin & _).
  rewrite Hc in Hc'. injection Hc' as _ ->. simpl.
  exists (new ++ [Call_file_save (path_join UPLOAD_FOLDER "input.wav")]).
  split; [by rewrite <- app_assoc |].
  apply calls_in_app; [| calls_in_auto].
  eapply calls_in_weaken; [| exact Hin].
  intros s Hs1. by apply list_elem_of_further.
Qed.



(** ** The order of the calls *)


(** ** The successful run, call by call *)



(** ** The files of the store *)

Lemma store_grows_refl (w : World) (files0 : gmap string (list byte)) :
  store_grows w files0 files0.
Proof. by split. Qed.

Lemma store_grows_trans (w : World) (f1 f2 f3 : gmap string (list byte)) :
  store_grows w f1 f2 → store_grows w f2 f3 → store_grows w f1 f3.
Proof.
  intros [Hk12 Hf12] [Hk23 Hf23]. split.
  - intros path H. by apply Hk23, Hk12.
  - intros path H. by rewrite Hf23, Hf12.
Qed.

Lemma store_grows_insert (w : World) (files0 : gmap string (list byte))
    (path : string) (b : bytes) :
  artifact_path w path → store_grows w files0 (<[path := b]> files0).
Proof.
  intros Hart. split.
  - intros p H. destruct (decide (path = p)) as [<- | Hne].
    + rewrite lookup_insert_eq. by eexists.
    + by rewrite lookup_insert_ne.
  - intros p Hp. apply lookup_insert_ne. by intros <-.
Qed.

Lemma save_upload_store (w : World) (file : bytes) (st : State) :
  store_grows w (fs st) (fs (save_upload w file st).2).
Proof.
  rewrite save_upload_run.
  destruct (file_save w _ file) as [[] | e]; simpl.
  - apply store_grows_insert. by left.
  - apply store_grows_refl.
Qed.

Lemma convert_audio_store (w : World) (st : State) :
  store_grows w (fs st) (fs (convert_audio w st).2).
Proof.
  unfold convert_audio, convert_try. run_M.
  destruct (fs st !! _) as [raw |]; simpl; [| apply store_grows_refl].
  destruct (AudioSegment_from_file w raw) as [audio | e]; simpl;
    [| apply store_grows_refl].
  destruct (AudioSegment_export w audio) as [wav | e]; simpl;
    [| apply store_grows_refl].
  apply store_grows_insert. right. by left.
Qed.

Lemma synthesize_store (w : World) (text target_lang : string) (st : State) :
  store_grows w (fs st) (fs (text_to_speech_file w text target_lang st).2).
Proof.
  unfold text_to_speech_file, synthesize_try. run_M.
  destruct (gTTS w text _) as [[] | e]; simpl; [| apply store_grows_refl].
  destruct (tts_save w _ text _) as [mp3 | e]; simpl;
    [| apply store_grows_refl].
  apply store_grows_insert. right. right. by eexists.
Qed.


(** ** Fetching the audio *)

(** When the [try] block of the synthesizer ends normally, the audio that
    the synthesis service returned is in the store under the returned
    name. *)
Lemma synthesize_try_ok_inv (w : World) (text target_lang : string)
    (out : pyval) (st st' : State) :
  synthesize_try w text target_lang st = (Ok out, st') →
  ∃ mp3 : bytes,
    tts_save w (S (S (length (trace st)))) text (tgt_trans_code target_lang)
      = Ok mp3 ∧
    out = PyStr (uuid4 w (S (length (trace st))) +:+ ".mp3") ∧
    fs st' = <[path_join UPLOAD_FOLDER (uuid4 w (S (length (trace st))) +:+ ".mp3")
                 := mp3]> (fs st).
Proof.
  unfold synthesize_try. run_M.
  destruct (gTTS w text _) as [[] | e]; simpl; [| discriminate].
  destruct (tts_save w _ text _) as [mp3 | e]; simpl; [| discriminate].
  intros [= <- <-]. by exists mp3.
Qed.



Lemma string_app_inv_suffix (s1 s2 t1 t2 : string) :
  String.length t1 = String.length t2 →
  s1 +:+ t1 = s2 +:+ t2 → t1 = t2.
Proof.
  intros Hlen. revert s2.
  induction s1 as [| a s1 IH]; intros [| b s2] H; simpl in H.
  - exact H.
  - apply (f_equal String.length) in H.
    rewrite !string_length_app in H. simpl in H. lia.
  - apply (f_equal String.length) in H.
    rewrite !string_length_app in H. simpl in H. lia.
  - injection H as _ H. by apply (IH s2).
Qed.

(** A name made from a UUID is not the name of the saved upload. *)
Lemma mp3_path_ne_input (u : string) :
  path_join UPLOAD_FOLDER (u +:+ ".mp3") ≠ path_join UPLOAD_FOLDER "input.wav".
Proof.
  unfold path_join. intros H.
  apply String.app_inj in H. apply String.app_inj in H.
  apply (string_app_inv_suffix u "input" ".mp3" ".wav") in H;
    [discriminate | reflexivity].
Qed.

Lemma convert_audio_keeps_input (w : World) (st : State) :
  fs (convert_audio w st).2 !! path_join UPLOAD_FOLDER "input.wav"
  = fs st !! path_join UPLOAD_FOLDER "input.wav".
Proof.
  unfold convert_audio, convert_try. run_M.
  destruct (fs st !! _) as [raw |] eqn:Hraw; simpl; [| by rewrite Hraw].
  destruct (AudioSegment_from_file w raw) as [audio | e]; simpl;
    [| by rewrite Hraw].
  destruct (AudioSegment_export w audio) as [wav | e]; simpl;
    [| by rewrite Hraw].
  rewrite lookup_insert_ne; [by rewrite Hraw | discriminate].
Qed.

Lemma synthesize_keeps_input (w : World) (text target_lang : string)
    (st : State) :
  fs (text_to_speech_file w text target_lang st).2
    !! path_join UPLOAD_FOLDER "input.wav"
  = fs st !! path_join UPLOAD_FOLDER "input.wav".
Proof.
  unfold text_to_speech_file, synthesize_try. run_M.
  destruct (gTTS w text _) as [[] | e]; simpl; [| reflexivity].
  destruct (tts_save w _ text _) as [mp3 | e]; simpl; [| reflexivity].
  apply lookup_insert_ne, mp3_path_ne_input.
Qed.


